(** * pyDAmonitor, [time_series.py]: omf/oma time series from hourly GSI diag files

    A shallow embedding of the four functions of [time_series.py]
    ([plot_time_series], [get_gsi_fps], [get_omfs], [make_plot]) and the
    properties of the pipeline they form.

    - values of a numpy [float64] array are primitive binary64 floats;
    - exceptions are an explicit outcome, printed lines, file reads and calls
      to [matplotlib.pyplot] are recorded in a trace, in program order;
    - the diag reader [Conventional(fp).get_data()] is an oracle [fs] from
      paths to either a table of observation rows or a raised exception. *)

From Stdlib Require Import ZArith List String Ascii Floats.PrimFloat Uint63 DecimalString.
From Stdlib Require Import Floats.SpecFloat Floats.FloatOps Floats.FloatAxioms.
From stdpp Require Import gmap strings list.

Local Open Scope string_scope.
Local Open Scope Z_scope.
Local Open Scope list_scope.

(** ** Exceptions, trace events and the effect monad *)

(** Classes of [Exception] the pipeline meets.  [OtherException] stands for
    any further subclass of [Exception] the diag reader may raise. *)
Inductive exn_class :=
| FileNotFoundError
| ValueError
| TypeError
| IndexError
| OtherException (name : string).

Record exn := Exn { exn_cls : exn_class; exn_msg : string }.

Definition is_FileNotFoundError (e : exn) : bool :=
  match exn_cls e with FileNotFoundError => true | _ => false end.

Inductive outcome (A : Type) :=
| Return (a : A)
| Raise (e : exn).
Arguments Return {A} a.
Arguments Raise {A} e.

(** Hour-resolution timestamps, as [datetime] and [pandas.Timestamp] hold
    them once [%Y%m%d%H] is all that is read from them. *)
Record datetime := DT { year : Z; month : Z; day : Z; hour : Z }.

(** Calls on the charting surface [matplotlib.pyplot], with the arguments
    the source passes. *)
Inductive plt_call :=
| Figure (w h : Z)
| Plot (x : list datetime) (y : list float) (marker linestyle color label : string)
| Scatter (x : list datetime) (y : list float) (color label : string)
| Axhline (y : float) (color linestyle label : string)
| Ylim (lo hi : float)
| Ylabel (s : string)
| Title (s : string)
| Grid (b : bool)
| Legend
| Xticks (rotation : Z)
| ShowChart.

Inductive event :=
| EvRead (fp : string)     (* Conventional(fp).get_data() is attempted *)
| EvPrint (msg : string)   (* print(msg) *)
| EvPlt (c : plt_call).    (* plt.<c>(...) *)

(** A computation: the events it emitted, then its value or the exception
    it raised. *)
Definition M (A : Type) : Type := (list event * outcome A)%type.

Definition ret {A} (a : A) : M A := ([], Return a).
Definition raise {A} (e : exn) : M A := ([], Raise e).
Definition emit (ev : event) : M unit := ([ev], Return tt).
Definition print (msg : string) : M unit := emit (EvPrint msg).
Definition plt (c : plt_call) : M unit := emit (EvPlt c).

Definition bind {A B} (m : M A) (k : A -> M B) : M B :=
  match m with
  | (t, Return a) => let '(t', o) := k a in (t ++ t', o)
  | (t, Raise e) => (t, Raise e)
  end.

(** [try: body  except FileNotFoundError: h1  except Exception as e: h2 e] *)
Definition try_except {A} (body : M A) (handler : exn -> M A) : M A :=
  match body with
  | (t, Return a) => (t, Return a)
  | (t, Raise e) => let '(t', o) := handler e in (t ++ t', o)
  end.

Declare Scope py_scope.
Delimit Scope py_scope with py.
Notation "x <~ m ;; k" := (bind m (fun x => k))
  (at level 100, m at next level, right associativity) : py_scope.
Notation "m ;;; k" := (bind m (fun _ => k))
  (at level 100, right associativity) : py_scope.
Local Open Scope py_scope.

Definition trace {A} (m : M A) : list event := fst m.
Definition result {A} (m : M A) : outcome A := snd m.

(** Paths whose read was attempted, in order. *)
Definition reads (t : list event) : list string :=
  omap (fun ev => match ev with EvRead fp => Some fp | _ => None end) t.

(** ** Timestamps and [pd.date_range(start, end, freq='H')] *)

Definition is_leap (y : Z) : bool :=
  (y mod 4 =? 0) && (negb (y mod 100 =? 0) || (y mod 400 =? 0)).

Definition days_in_month (y m : Z) : Z :=
  match m with
  | 2 => if is_leap y then 29 else 28
  | 4 | 6 | 9 | 11 => 30
  | _ => 31
  end.

(** A timestamp that a [datetime] can hold (years 1 to 9999). *)
Definition valid_datetime (t : datetime) : Prop :=
  1 <= year t <= 9999 /\ 1 <= month t <= 12 /\
  1 <= day t <= days_in_month (year t) (month t) /\ 0 <= hour t <= 23.

Definition valid_datetimeb (t : datetime) : bool :=
  (1 <=? year t) && (year t <=? 9999) && (1 <=? month t) && (month t <=? 12) &&
  (1 <=? day t) && (day t <=? days_in_month (year t) (month t)) &&
  (0 <=? hour t) && (hour t <=? 23).

Definition days_before_year (y : Z) : Z :=
  (y - 1) * 365 + (y - 1) / 4 - (y - 1) / 100 + (y - 1) / 400.

Definition days_before_month (y m : Z) : Z :=
  match m with
  | 1 => 0 | 2 => 31 | 3 => 59 | 4 => 90 | 5 => 120 | 6 => 151
  | 7 => 181 | 8 => 212 | 9 => 243 | 10 => 273 | 11 => 304 | _ => 334
  end + (if (2 <? m) && is_leap y then 1 else 0).

(** Proleptic Gregorian ordinal of the day, then the hour count: the
    position of a timestamp on the time axis. *)
Definition toordinal (t : datetime) : Z :=
  days_before_year (year t) + days_before_month (year t) (month t) + day t.

Definition to_hours (t : datetime) : Z := toordinal t * 24 + hour t.

(** The timestamp one hour later. *)
Definition add_hour (t : datetime) : datetime :=
  if hour t <? 23 then DT (year t) (month t) (day t) (hour t + 1)
  else if day t <? days_in_month (year t) (month t)
       then DT (year t) (month t) (day t + 1) 0
  else if month t <? 12 then DT (year t) (month t + 1) 1 0
  else DT (year t + 1) 1 1 0.

Fixpoint hourly (n : nat) (t : datetime) : list datetime :=
  match n with
  | O => []
  | S k => t :: hourly k (add_hour t)
  end.

(** The hours from [s_time] to [f_time]: start, start+1h, ... up to and
    including the last one not after the end; none when the end is before
    the start. *)
Definition hourly_range (s_time f_time : datetime) : list datetime :=
  hourly (Z.to_nat (to_hours f_time - to_hours s_time + 1)) s_time.

(** The timestamps pandas holds at nanosecond resolution lie between
    1677-09-21 00:12:43.145224193 and 2262-04-11 23:47:16.854775807; at
    hour resolution these are the hours from 1677-09-21 01 to
    2262-04-11 23. *)
Definition Timestamp_min_hour : datetime := DT 1677 9 21 1.
Definition Timestamp_max_hour : datetime := DT 2262 4 11 23.

Definition in_ns_bounds (t : datetime) : bool :=
  (to_hours Timestamp_min_hour <=? to_hours t) &&
  (to_hours t <=? to_hours Timestamp_max_hour).

(** [OutOfBoundsDatetime] of pandas, a subclass of [ValueError]; the text
    of the message leaves the timestamp out. *)
Definition out_of_bounds_error : exn :=
  Exn (OtherException "OutOfBoundsDatetime") "Out of bounds nanosecond timestamp".

(** [pd.date_range(start=s_time, end=f_time, freq='H')]: both ends are
    first turned into nanosecond timestamps, which fails outside the bounds;
    then the hours of the range are laid out. *)
Definition date_range (s_time f_time : datetime) : M (list datetime) :=
  if in_ns_bounds s_time && in_ns_bounds f_time
  then ret (hourly_range s_time f_time)
  else raise out_of_bounds_error.

(** ** [datetime.strptime(t, '%Y%m%d%H')]

    The standard library turns the format into the regular expression
    [(\d\d\d\d)(1[0-2]|0[1-9]|[1-9])(3[01]|[12]\d|0[1-9]|[1-9]| [1-9])(2[0-3]|[0-1]\d|\d)],
    matches it at the start of the string with backtracking, refuses text
    left over after the match, and then builds the date, which refuses year
    0 and a day the month does not have.  Each group below lists its
    matches in the order the alternatives are tried.  Strings are ASCII;
    the text of a message leaves the quoted data out. *)

Definition digitb (lo hi : nat) (c : ascii) : bool :=
  (lo + 48 <=? nat_of_ascii c)%nat && (nat_of_ascii c <=? hi + 48)%nat.

Definition digit_val (c : ascii) : Z := Z.of_nat (nat_of_ascii c - 48).

Definition re_group : Type := string -> list (Z * string).

Definition re_two (p1 p2 : ascii -> bool) : re_group := fun s =>
  match s with
  | String a (String b r) =>
      if p1 a && p2 b then [(10 * digit_val a + digit_val b, r)] else []
  | _ => []
  end.

Definition re_one (p : ascii -> bool) : re_group := fun s =>
  match s with
  | String a r => if p a then [(digit_val a, r)] else []
  | _ => []
  end.

Definition re_space_one (p : ascii -> bool) : re_group := fun s =>
  match s with
  | String a (String b r) =>
      if Ascii.eqb a " " && p b then [(digit_val b, r)] else []
  | _ => []
  end.

Definition re_alt (gs : list re_group) : re_group := fun s =>
  concat ((fun g => g s) <$> gs).

Definition re_Y : re_group := fun s =>
  match s with
  | String a (String b (String c (String d r))) =>
      if digitb 0 9 a && digitb 0 9 b && digitb 0 9 c && digitb 0 9 d
      then [(1000 * digit_val a + 100 * digit_val b + 10 * digit_val c + digit_val d, r)]
      else []
  | _ => []
  end.

Definition re_m : re_group :=
  re_alt [re_two (digitb 1 1) (digitb 0 2); re_two (digitb 0 0) (digitb 1 9);
          re_one (digitb 1 9)].

Definition re_d : re_group :=
  re_alt [re_two (digitb 3 3) (digitb 0 1); re_two (digitb 1 2) (digitb 0 9);
          re_two (digitb 0 0) (digitb 1 9); re_one (digitb 1 9);
          re_space_one (digitb 1 9)].

Definition re_H : re_group :=
  re_alt [re_two (digitb 2 2) (digitb 0 3); re_two (digitb 0 1) (digitb 0 9);
          re_one (digitb 0 9)].

(** All matches of the whole expression, first match first. *)
Definition re_YmdH (s : string) : list (datetime * string) :=
  '(y, r1) ← re_Y s; '(m, r2) ← re_m r1; '(d, r3) ← re_d r2; '(h, r4) ← re_H r3;
  [(DT y m d h, r4)].

Definition strptime_no_match : exn :=
  Exn ValueError "time data does not match format '%Y%m%d%H'".
Definition strptime_unconverted : exn :=
  Exn ValueError "unconverted data remains".
Definition strptime_bad_year : exn :=
  Exn ValueError "year 0 is out of range".
Definition strptime_bad_day : exn :=
  Exn ValueError "day is out of range for month".

Definition strptime (s : string) : outcome datetime :=
  match re_YmdH s with
  | [] => Raise strptime_no_match
  | (t, rest) :: _ =>
      if negb (String.eqb rest "") then Raise strptime_unconverted
      else if year t <? 1 then Raise strptime_bad_year
      else if days_in_month (year t) (month t) <? day t then Raise strptime_bad_day
      else Return t
  end.

(** A time argument of the entry point: a string or a ready [datetime]. *)
Inductive time_arg :=
| TimeStr (s : string)
| TimeObj (t : datetime).

(** [datetime.strptime(t, '%Y%m%d%H') if isinstance(t, str) else t] *)
Definition normalize (t : time_arg) : M datetime :=
  match t with
  | TimeStr s => ([], strptime s)
  | TimeObj d => ret d
  end.

(** ** [get_gsi_fps] *)

Definition decimal (n : Z) : string :=
  NilEmpty.string_of_uint (N.to_uint (Z.to_N n)).

Fixpoint zeros (k : nat) : string :=
  match k with
  | O => ""
  | S k' => String "0" (zeros k')
  end.

(** Left padding with zeros up to [w] characters ([%02d], [%04d]). *)
Definition zfill (w : nat) (s : string) : string :=
  zeros (w - String.length s) +:+ s.

(** [t.strftime('%Y%m%d%H')]: month, day and hour with two digits; the year
    as the C library prints it, without padding, so with fewer than four
    digits before the year 1000. *)
Definition strftime_YmdH (t : datetime) : string :=
  decimal (year t) +:+ zfill 2 (decimal (month t)) +:+
  zfill 2 (decimal (day t)) +:+ zfill 2 (decimal (hour t)).

(** [s[:n]] and [s[-n:]] *)
Definition slice_to (n : nat) (s : string) : string := substring 0 n s.
Definition slice_last (n : nat) (s : string) : string :=
  substring (String.length s - n) n s.

Definition get_gsi_fps (path var anl_ges : string) (date_times : list datetime)
  : list string :=
  let date_strs := strftime_YmdH <$> date_times in
  let day_strs := slice_to 8 <$> date_strs in
  let hour_strs := slice_last 2 <$> date_strs in
  (fun '(day_str, hour_str) =>
     path +:+ "/RTMA_CONUS." +:+ day_str +:+ "/" +:+ hour_str +:+
     "/diag_conv_" +:+ var +:+ "_" +:+ anl_ges +:+ "." +:+
     day_str +:+ hour_str +:+ ".nc4.gz")
  <$> zip day_strs hour_strs.

(** ** The diag reader, the row filter and the mean of a column *)

(** A row of the table [Conventional(fp).get_data()] returns, with the three
    columns this module uses. *)
Record obs_row := Row {
  station_id : string;
  observation_type : Z;
  omf_adjusted : float
}.

Definition dataframe : Type := list obs_row.

(** The files on disk as the reader sees them: the table of a path, or the
    exception reading it raises. *)
Definition filesystem : Type := string -> outcome dataframe.

(** [Conventional(fp).get_data()] *)
Definition Conventional_get_data (fs : filesystem) (fp : string) : M dataframe :=
  emit (EvRead fp) ;;; ([], fs fp).

Definition keep_if_listed {A} (eqb : A -> A -> bool) (wanted : option (list A)) (x : A)
  : bool :=
  match wanted with
  | None => true
  | Some l => existsb (eqb x) l
  end.

(** Modelled from the spec: [filter_df] of the module [filter_df], which is
    not among the sources.  Spec 4.2 step 4: the station-identifier filter,
    if given, keeps only matching rows, the observation-type filter, if
    given, keeps only matching rows, both filters ANDed; a filter that is
    not given restricts nothing.  The tables of the list are taken
    together. *)
Definition filter_df (dfs : list dataframe)
  (station_ids : option (list string)) (obs_types : option (list Z)) : dataframe :=
  List.filter
    (fun r => keep_if_listed String.eqb station_ids (station_id r) &&
              keep_if_listed Z.eqb obs_types (observation_type r))
    (concat dfs).

(** The sum of a float64 array as numpy takes it ([add.reduce] over a
    contiguous array): pairwise summation.  Fewer than 8 values are added
    left to right, starting from -0.0; up to 128 values are added into 8
    running sums that are then combined two by two, the values left over
    after the last full group of 8 being added one by one; longer arrays
    are cut in two near the middle, at a multiple of 8. *)
Definition sum_from (start : float) (a : list float) : float :=
  fold_left PrimFloat.add a start.

Fixpoint accumulate8 (groups : nat) (r a : list float) : list float :=
  match groups with
  | O => r
  | S k => accumulate8 k (zip_with PrimFloat.add r (take 8 a)) (drop 8 a)
  end.

Definition combine8 (r : list float) : float :=
  match r with
  | [r0; r1; r2; r3; r4; r5; r6; r7] =>
      (((r0 + r1) + (r2 + r3)) + ((r4 + r5) + (r6 + r7)))%float
  | _ => sum_from neg_zero r
  end.

Definition block_sum (a : list float) : float :=
  let groups := (length a / 8)%nat in
  let r := accumulate8 (groups - 1) (take 8 a) (drop 8 a) in
  sum_from (combine8 r) (drop (8 * groups) a).

Fixpoint pairwise_sum (fuel : nat) (a : list float) : float :=
  let n := length a in
  if (n <? 8)%nat then sum_from neg_zero a
  else if (n <=? 128)%nat then block_sum a
  else
    match fuel with
    | O => block_sum a
    | S fuel' =>
        let n2 := (n / 2 - (n / 2) mod 8)%nat in
        (pairwise_sum fuel' (take n2 a) + pairwise_sum fuel' (drop n2 a))%float
    end.

(** [a.sum()]: the reduction starts from the identity 0.0 of the addition
    and adds the pairwise sum of the array to it, so that a sum of -0.0 is
    returned as +0.0. *)
Definition np_sum (a : list float) : float :=
  (0 + pairwise_sum (length a) a)%float.

Definition float_of_nat (n : nat) : float :=
  PrimFloat.of_uint63 (Uint63.of_Z (Z.of_nat n)).

(** [Series.mean()] of pandas, with its default [skipna=True] (the function
    [nanmean] of [pandas.core.nanops], without the optional bottleneck
    library): not-a-number entries are replaced by zero for the sum and left
    out of the count; the mean is the sum over the count, and not-a-number
    when the count is zero. *)
Definition pd_mean (values : list float) : float :=
  let filled := (fun x => if is_nan x then 0%float else x) <$> values in
  let count := length (List.filter (fun x => negb (is_nan x)) values) in
  if (0 <? count)%nat then (np_sum filled / float_of_nat count)%float else nan.

(** ** [get_omfs] *)

(** [enumerate(fps)] *)
Definition enumerate {A} (l : list A) : list (nat * A) := zip (seq 0 (length l)) l.

(** One pass of the [for] loop over [enumerate(fps)], with the array
    [hourly_omf] as it stands. *)
Definition get_omfs_step (fs : filesystem)
  (station_ids : option (list string)) (obs_types : option (list Z))
  (i : nat) (fp : string) (hourly_omf : list float) : M (list float) :=
  try_except
    (df <~ Conventional_get_data fs fp ;;
     let omf_values := omf_adjusted <$> filter_df [df] station_ids obs_types in
     (if (length omf_values =? 0)%nat
      then print "Filter combination yields no results" else ret tt) ;;;
     ret (<[i := pd_mean omf_values]> hourly_omf))
    (fun e =>
       if is_FileNotFoundError e then ret (<[i := nan]> hourly_omf)
       else (print ("Unknown error occurred: " +:+ exn_msg e) ;;; raise e)).

Fixpoint get_omfs_loop (fs : filesystem)
  (station_ids : option (list string)) (obs_types : option (list Z))
  (items : list (nat * string)) (hourly_omf : list float) : M (list float) :=
  match items with
  | [] => ret hourly_omf
  | (i, fp) :: rest =>
      hourly_omf' <~ get_omfs_step fs station_ids obs_types i fp hourly_omf ;;
      get_omfs_loop fs station_ids obs_types rest hourly_omf'
  end.

Definition get_omfs (fs : filesystem) (fps : list string)
  (station_ids : option (list string)) (obs_types : option (list Z)) : M (list float) :=
  let hourly_omf := replicate (length fps) 0%float in
  get_omfs_loop fs station_ids obs_types (enumerate fps) hourly_omf.

(** ** [make_plot] *)

Definition units_mapping : gmap string (list string) :=
  {[ "t" := ["Temperature"; "Degrees Fahrenheit"];
     "ps" := ["Surface Pressure"; "Pascals"];
     "q" := ["Specfic Humidity"; "G Water Vapor per KG of Air"] ]}.

(** [o[i]] where [o] came from [dict.get]: subscripting [None] is a
    [TypeError]. *)
Definition subscript_opt (o : option (list string)) (i : nat) : M string :=
  match o with
  | None => raise (Exn TypeError "'NoneType' object is not subscriptable")
  | Some l =>
      match l !! i with
      | Some x => ret x
      | None => raise (Exn IndexError "list index out of range")
      end
  end.

Definition getitem (l : list string) (i : nat) : M string :=
  match l !! i with
  | Some x => ret x
  | None => raise (Exn IndexError "list index out of range")
  end.

Definition colors : list string := ["b"; "g"; "c"; "m"; "y"; "k"].

Definition plot_shape_error : exn :=
  Exn ValueError "x and y must have same first dimension".
Definition mask_shape_error : exn :=
  Exn IndexError "boolean index did not match indexed array".
Definition nanmax_empty_error : exn :=
  Exn ValueError "zero-size array to reduction operation fmax which has no identity".
Definition ylim_error : exn :=
  Exn ValueError "Axis limits cannot be NaN or Inf".

(** [plt.plot(x, y, ...)]: the two sequences must be equally long. *)
Definition plt_plot (x : list datetime) (y : list float)
  (marker linestyle color label : string) : M unit :=
  if (length x =? length y)%nat then plt (Plot x y marker linestyle color label)
  else raise plot_shape_error.

(** [times[mask]] with a boolean mask. *)
Definition mask_index {A} (xs : list A) (mask : list bool) : M (list A) :=
  if (length xs =? length mask)%nat
  then ret (fst <$> List.filter snd (zip xs mask))
  else raise mask_shape_error.

(** [sum(mask)] *)
Definition count_true (mask : list bool) : nat := length (List.filter id mask).

(** [np.fmax]: the larger of two floats, a not-a-number giving way to a
    number. *)
Definition fmax (a b : float) : float :=
  if is_nan a then b else if is_nan b then a else if (a <? b)%float then b else a.

(** [np.nanmax(a)] of a one-dimensional array. *)
Definition np_nanmax (a : list float) : M float :=
  match a with
  | [] => raise nanmax_empty_error
  | x :: rest => ret (fold_left fmax rest x)
  end.

(** Python's [max(a, b)]: [a] unless [b > a]. *)
Definition py_max (a b : float) : float := if (a <? b)%float then b else a.

Definition one_point_one : float := Eval cbv in (11 / 10)%float.

Fixpoint make_plot_loop (times : list datetime) (items : list (string * list float))
  (color_ind : nat) (max_val : float) : M float :=
  match items with
  | [] => ret max_val
  | (key, data) :: rest =>
      color <~ getitem colors color_ind ;;
      plt_plot times data "o" "-" color key ;;;
      let color_ind := ((color_ind + 1) mod length colors)%nat in
      let nan_indices := is_nan <$> data in
      no_data_times <~ mask_index times nan_indices ;;
      plt (Scatter no_data_times (replicate (count_true nan_indices) 0%float)
             "red" "No Data") ;;;
      biggest <~ np_nanmax (PrimFloat.abs <$> data) ;;
      let max_val := py_max (biggest * one_point_one)%float max_val in
      make_plot_loop times rest color_ind max_val
  end.

(** [plt.ylim(lo, hi)] refuses a bound that is not finite. *)
Definition plt_ylim (lo hi : float) : M unit :=
  if is_nan lo || is_infinity lo || is_nan hi || is_infinity hi
  then raise ylim_error
  else plt (Ylim lo hi).

(** [series] is the dict of the caller in insertion order, which is the
    order [series.items()] yields.  The calls that draw are recorded as
    events and taken to succeed on the data they are handed, apart from the
    checks written out above; what matplotlib does with magnitudes near the
    largest float, where its own arithmetic on the axis limits overflows
    (a [LinAlgError] raised from [plt.axhline]), is outside the model. *)
Definition make_plot (series : list (string * list float)) (times : list datetime)
  (var : string) : M unit :=
  var_units <~ subscript_opt (units_mapping !! var) 1 ;;
  var_name <~ subscript_opt (units_mapping !! var) 0 ;;
  plt (Figure 10 5) ;;;
  max_val <~ make_plot_loop times series 0%nat 0%float ;;
  plt (Axhline 0%float "r" "--" "Zero") ;;;
  plt_ylim (- max_val)%float max_val ;;;
  plt (Ylabel var_units) ;;;
  plt (Title (var_name +:+ " DA Time Series Plot")) ;;;
  plt (Grid true) ;;;
  plt Legend ;;;
  plt (Xticks 45) ;;;
  plt ShowChart.

(** Entries of the legend [plt.legend()] draws: one per drawn artist whose
    label is not empty and does not start with an underscore, in drawing
    order; equal labels are not merged. *)
Definition artist_label (c : plt_call) : option string :=
  match c with
  | Plot _ _ _ _ _ l | Scatter _ _ _ l | Axhline _ _ _ l =>
      match l with
      | "" => None
      | String "_" _ => None
      | _ => Some l
      end
  | _ => None
  end.

Definition legend_entries (t : list event) : list string :=
  omap (fun ev => match ev with EvPlt c => artist_label c | _ => None end) t.

(** ** [plot_time_series] *)

Definition allowed_modes : gset string := {[ "anl"; "ges"; "both" ]}.

Definition invalid_mode_error (anl_ges : string) : exn :=
  Exn ValueError
    ("'" +:+ anl_ges +:+ "' is not an allowed option, must be 'anl', 'ges', or 'both' ").

(** [d[k] = v] on a dict kept in insertion order. *)
Fixpoint dict_set {V} (d : list (string * V)) (k : string) (v : V) : list (string * V) :=
  match d with
  | [] => [(k, v)]
  | (k', v') :: rest =>
      if String.eqb k' k then (k', v) :: rest else (k', v') :: dict_set rest k v
  end.

(** Lines 32 to 55 of [plot_time_series]: everything before the call of
    [make_plot], giving the time axis and the dict [series]. *)
Definition collect_series (fs : filesystem) (path var anl_ges : string)
  (s_time f_time : time_arg)
  (station_ids : option (list string)) (obs_types : option (list Z))
  : M (list datetime * list (string * list float)) :=
  (if bool_decide (anl_ges ∉ allowed_modes)
   then raise (invalid_mode_error anl_ges) else ret tt) ;;;
  s_time <~ normalize s_time ;;
  f_time <~ normalize f_time ;;
  date_times <~ date_range s_time f_time ;;
  let series : list (string * list float) := [] in
  series <~ (if String.eqb anl_ges "both" || String.eqb anl_ges "ges"
             then
               let ges_fps := get_gsi_fps path var "ges" date_times in
               ges_omfs <~ get_omfs fs ges_fps station_ids obs_types ;;
               ret (dict_set series "ges" ges_omfs)
             else ret series) ;;
  series <~ (if String.eqb anl_ges "both" || String.eqb anl_ges "anl"
             then
               let anl_fps := get_gsi_fps path var "anl" date_times in
               anl_omfs <~ get_omfs fs anl_fps station_ids obs_types ;;
               ret (dict_set series "anl" anl_omfs)
             else ret series) ;;
  ret (date_times, series).

Definition plot_time_series (fs : filesystem) (path var anl_ges : string)
  (s_time f_time : time_arg)
  (station_ids : option (list string)) (obs_types : option (list Z)) : M unit :=
  collected <~
     collect_series fs path var anl_ges s_time f_time station_ids obs_types ;;
  let '(date_times, series) := collected in
  make_plot series date_times var.

(** ** What the specification says, for comparison with the code *)

Definition digit_char (n : Z) : ascii := ascii_of_nat (48 + Z.to_nat (n mod 10)).

(** The 8-digit date [YYYYMMDD] and the 2-digit hour [HH] of a timestamp,
    written digit by digit. *)
Definition date_YYYYMMDD (t : datetime) : string :=
  String (digit_char (year t / 1000)) (String (digit_char (year t / 100))
  (String (digit_char (year t / 10)) (String (digit_char (year t))
  (String (digit_char (month t / 10)) (String (digit_char (month t))
  (String (digit_char (day t / 10)) (String (digit_char (day t)) ""))))))).

Definition hour_HH (t : datetime) : string :=
  String (digit_char (hour t / 10)) (String (digit_char (hour t)) "").

(** [{root}/RTMA_CONUS.{YYYYMMDD}/{HH}/diag_conv_{var}_{anl_ges}.{YYYYMMDD}{HH}.nc4.gz] *)
Definition path_template (root var anl_ges : string) (t : datetime) : string :=
  root +:+ "/RTMA_CONUS." +:+ date_YYYYMMDD t +:+ "/" +:+ hour_HH t +:+
  "/diag_conv_" +:+ var +:+ "_" +:+ anl_ges +:+ "." +:+
  date_YYYYMMDD t +:+ hour_HH t +:+ ".nc4.gz".

(** The filtered adjusted-omf values of a table. *)
Definition filtered_omf (df : dataframe)
  (station_ids : option (list string)) (obs_types : option (list Z)) : list float :=
  omf_adjusted <$> filter_df [df] station_ids obs_types.

(** The values added one after the other, x1 + x2 + ... + xn. *)
Definition left_sum (values : list float) : float :=
  match values with
  | [] => 0%float
  | x :: rest => fold_left PrimFloat.add rest x
  end.

(** The arithmetic mean of a sequence of floats: the values added one after
    the other over their number. *)
Definition arithmetic_mean (values : list float) : float :=
  match values with
  | [] => nan
  | _ :: _ => (left_sum values / float_of_nat (length values))%float
  end.

(** What one path contributes to the series, and what is printed on the
    way, by the steps 1 to 6 of spec 4.2. *)
Definition file_value (fs : filesystem)
  (station_ids : option (list string)) (obs_types : option (list Z))
  (fp : string) : M float :=
  match fs fp with
  | Return df =>
      let values := filtered_omf df station_ids obs_types in
      (EvRead fp ::
         match values with
         | [] => [EvPrint "Filter combination yields no results"]
         | _ => []
         end,
       Return (pd_mean values))
  | Raise e =>
      if is_FileNotFoundError e then ([EvRead fp], Return nan)
      else ([EvRead fp; EvPrint ("Unknown error occurred: " +:+ exn_msg e)], Raise e)
  end.

Fixpoint mapM {A B} (f : A -> M B) (l : list A) : M (list B) :=
  match l with
  | [] => ret []
  | x :: rest => y <~ f x ;; ys <~ mapM f rest ;; ret (y :: ys)
  end.

(** The timestamps at which a series holds not-a-number. *)
Definition no_data_times (times : list datetime) (data : list float) : list datetime :=
  fst <$> List.filter (fun p => is_nan (snd p)) (zip times data).

(** The error conditions of spec 7 as the code raises them. *)
Definition InvalidArgument (e : exn) : Prop :=
  exists anl_ges, e = invalid_mode_error anl_ges.

Definition ParseError (e : exn) : Prop :=
  e ∈ [strptime_no_match; strptime_unconverted; strptime_bad_year; strptime_bad_day].

Definition UnknownVariable (e : exn) : Prop :=
  e = Exn TypeError "'NoneType' object is not subscriptable".

(** An error of the reader that is not file-not-found. *)
Definition unexpected_read_error (fs : filesystem) (fp : string) (e : exn) : Prop :=
  fs fp = Raise e /\ is_FileNotFoundError e = false.

(** A disk on which no read fails with anything but file-not-found. *)
Definition no_unexpected_error (fs : filesystem) : Prop :=
  forall fp e, fs fp = Raise e -> is_FileNotFoundError e = true.

(** The two artists a series adds to the chart: its line, and the
    highlight of its missing hours on the zero line. *)
Definition series_artists (times : list datetime) (color : string)
  (kv : string * list float) : list event :=
  [EvPlt (Plot times kv.2 "o" "-" color kv.1);
   EvPlt (Scatter (no_data_times times kv.2)
            (replicate (length (no_data_times times kv.2)) 0%float) "red" "No Data")].

Fixpoint loop_artists (times : list datetime) (items : list (string * list float))
  (color_ind : nat) : list event :=
  match items with
  | [] => []
  | kv :: rest =>
      series_artists times (default "" (colors !! color_ind)) kv ++
      loop_artists times rest ((color_ind + 1) mod length colors)%nat
  end.

(** The legend entries of the series: its own label when a legend shows
    it, then the label of its highlight. *)
Definition series_legend (kv : string * list float) : list string :=
  match kv.1 with
  | "" => []
  | String "_" _ => []
  | k => [k]
  end ++ ["No Data"].

(** How often a label occurs among the legend entries. *)
Definition count_label (l : string) (entries : list string) : nat :=
  length (List.filter (String.eqb l) entries).

(** ** Disks used in the examples *)

Definition not_found (fp : string) : exn :=
  Exn FileNotFoundError ("[Errno 2] No such file or directory: '" +:+ fp +:+ "'").

(** A disk holding the listed files and nothing else. *)
Fixpoint disk_of (files : list (string * outcome dataframe)) : filesystem :=
  fun fp =>
    match files with
    | [] => Raise (not_found fp)
    | (name, content) :: rest =>
        if String.eqb name fp then content else disk_of rest fp
    end.

Definition rows_135 : dataframe :=
  [Row "KDEN" 187 1%float; Row "KSLC" 187 3%float; Row "KBOI" 181 5%float].

Definition rows_2_5 : dataframe :=
  [Row "KDEN" 187 2%float; Row "KSLC" 181 5%float].

Definition rows_1_nan : dataframe :=
  [Row "KDEN" 187 1%float; Row "KSLC" 187 nan].

(** The scenario of spec 8: guess files of variable [t] for the hours 00
    and 02 of one day only. *)
Definition disk_hours_00_02 : filesystem :=
  disk_of
    [("/d/RTMA_CONUS.20240101/00/diag_conv_t_ges.2024010100.nc4.gz", Return rows_135);
     ("/d/RTMA_CONUS.20240101/02/diag_conv_t_ges.2024010102.nc4.gz", Return rows_2_5)].

(** Guess and analysis files for one hour. *)
Definition disk_ges_anl : filesystem :=
  disk_of
    [("/d/RTMA_CONUS.20240101/00/diag_conv_t_ges.2024010100.nc4.gz", Return rows_135);
     ("/d/RTMA_CONUS.20240101/00/diag_conv_t_anl.2024010100.nc4.gz", Return rows_2_5)].

(** A disk whose second file cannot be read. *)
Definition disk_corrupt : filesystem :=
  disk_of
    [("a.nc4.gz", Return rows_135);
     ("b.nc4.gz", Raise (Exn (OtherException "OSError") "Not a gzipped file"));
     ("c.nc4.gz", Return rows_2_5)].

Definition disk_nan_row : filesystem :=
  disk_of [("a.nc4.gz", Return rows_1_nan)].

(** The guess file of variable [t] for an hour of 1 January 2024. *)
Definition ges_path (hh : string) : string :=
  "/d/RTMA_CONUS.20240101/" +:+ hh +:+ "/diag_conv_t_ges.20240101" +:+ hh +:+ ".nc4.gz".

(** ** Further vocabulary for the properties of the whole module *)

(** A path whose read either succeeds or fails with file-not-found. *)
Definition tolerated (fs : filesystem) (fp : string) : Prop :=
  forall e, fs fp = Raise e -> is_FileNotFoundError e = true.

(** Events of the extraction (reads and prints) and of the chart. *)
Definition is_plt_event (ev : event) : bool :=
  match ev with EvPlt _ => true | _ => false end.

Definition is_read_event (ev : event) : bool :=
  match ev with EvRead _ => true | _ => false end.

(** The month, day and hour groups of the [strptime] expression, after the
    year has been read. *)
Definition re_mdH (s : string) : list ((Z * Z * Z) * string) :=
  '(m, r2) ← re_m s; '(d, r3) ← re_d r2; '(h, r4) ← re_H r3; [((m, d, h), r4)].

(** The colour of the series drawn in position [i]. *)
Definition series_color (i : nat) : string :=
  default "" (colors !! (i mod length colors)%nat).

(** A disk whose guess file of hour 01 cannot be read. *)
Definition disk_corrupt_ges : filesystem :=
  disk_of
    [(ges_path "00", Return rows_135);
     (ges_path "01", Raise (Exn (OtherException "OSError") "Not a gzipped file"))].

(** A disk on which every file is missing, as when the root directory is
    wrong. *)
Definition all_missing (fs : filesystem) : Prop :=
  forall fp, exists e, fs fp = Raise e /\ is_FileNotFoundError e = true.

(** The colour index after [n] passes of the loop of [make_plot]. *)
Fixpoint color_after (n : nat) (color_ind : nat) : nat :=
  match n with
  | O => color_ind
  | S k => color_after k ((color_ind + 1) mod length colors)%nat
  end.

(** A file whose only row has a not-a-number omf, alone on its disk. *)
Definition rows_nan_only : dataframe := [Row "KDEN" 187 nan].

Definition disk_nan_only : filesystem :=
  disk_of [("a.nc4.gz", Return rows_nan_only)].

(** Timestamps whose year [strftime] prints with four digits; every
    timestamp pandas holds at nanosecond resolution is one. *)
Definition four_digit_year (t : datetime) : Prop :=
  valid_datetime t /\ 1000 <= year t.

(** Timestamps [pd.date_range] accepts as an end of the range. *)
Definition representable (t : datetime) : Prop :=
  valid_datetime t /\ in_ns_bounds t = true.

(** The labels of the series a mode asks for, in the order the code
    extracts them. *)
Definition mode_labels (anl_ges : string) : list string :=
  (if String.eqb anl_ges "both" || String.eqb anl_ges "ges" then ["ges"] else []) ++
  (if String.eqb anl_ges "both" || String.eqb anl_ges "anl" then ["anl"] else []).

(** Strings of decimal digits: what [strftime('%Y%m%d%H')] prints, and so
    what the slices [day_str] and [hour_str] hold. *)
Fixpoint digits_only (s : string) : bool :=
  match s with
  | EmptyString => true
  | String c r => digitb 0 9 c && digits_only r
  end.

(** * Properties *)

(** ** The calendar *)

Lemma is_leap_spec (y : Z) :
  is_leap y = true <-> y mod 4 = 0 /\ (y mod 100 <> 0 \/ y mod 400 = 0).
Proof.
  unfold is_leap.
  rewrite andb_true_iff, orb_true_iff, negb_true_iff, !Z.eqb_eq, Z.eqb_neq.
  tauto.
Qed.

Lemma days_before_year_succ (y : Z) :
  days_before_year (y + 1) = days_before_year y + (if is_leap y then 366 else 365).
Proof.
  unfold days_before_year.
  destruct (is_leap y) eqn:L.
  - apply is_leap_spec in L.
    replace (y + 1 - 1) with y by lia.
    Z.div_mod_to_equations. lia.
  - assert (N : ~ (y mod 4 = 0 /\ (y mod 100 <> 0 \/ y mod 400 = 0))).
    { rewrite <- is_leap_spec, L. discriminate. }
    replace (y + 1 - 1) with y by lia.
    Z.div_mod_to_equations. lia.
Qed.

Lemma month_cases (m : Z) :
  1 <= m <= 12 ->
  m = 1 \/ m = 2 \/ m = 3 \/ m = 4 \/ m = 5 \/ m = 6 \/
  m = 7 \/ m = 8 \/ m = 9 \/ m = 10 \/ m = 11 \/ m = 12.
Proof. lia. Qed.

Ltac each_month m H :=
  destruct (month_cases m H) as [?|[?|[?|[?|[?|[?|[?|[?|[?|[?|[?|?]]]]]]]]]]]; subst m.

Lemma days_before_month_succ (y m : Z) :
  1 <= m <= 11 ->
  days_before_month y (m + 1) = days_before_month y m + days_in_month y m.
Proof.
  intros H. assert (H' : 1 <= m <= 12) by lia.
  each_month m H'; try lia;
    unfold days_before_month, days_in_month; simpl; destruct (is_leap y); reflexivity.
Qed.

Lemma days_before_month_12 (y : Z) :
  days_before_month y 12 + days_in_month y 12 = if is_leap y then 366 else 365.
Proof. unfold days_before_month, days_in_month; simpl; destruct (is_leap y); reflexivity. Qed.

Lemma days_in_month_bounds (y m : Z) : 28 <= days_in_month y m <= 31.
Proof.
  unfold days_in_month.
  repeat match goal with
         | |- context [match ?x with _ => _ end] => destruct x
         end; lia.
Qed.

(** One step of [add_hour] moves one hour along the time axis. *)
Lemma to_hours_add_hour (t : datetime) :
  1 <= month t <= 12 -> day t <= days_in_month (year t) (month t) -> hour t <= 23 ->
  to_hours (add_hour t) = to_hours t + 1.
Proof.
  destruct t as [y m d h]; simpl; intros Hm Hd Hh.
  unfold add_hour, to_hours, toordinal; simpl.
  destruct (Z.ltb_spec h 23); simpl; [lia|].
  destruct (Z.ltb_spec d (days_in_month y m)); simpl; [lia|].
  destruct (Z.ltb_spec m 12); simpl.
  - rewrite days_before_month_succ by lia. lia.
  - assert (m = 12) by lia; subst m.
    rewrite days_before_year_succ.
    pose proof (days_before_month_12 y).
    change (days_before_month (y + 1) 1) with (0 + (if (2 <? 1) && is_leap (y + 1) then 1 else 0)).
    simpl. lia.
Qed.

Lemma add_hour_valid (t : datetime) :
  valid_datetime t -> year t < 9999 -> valid_datetime (add_hour t).
Proof.
  destruct t as [y m d h]; unfold valid_datetime, add_hour; simpl.
  intros (Hy & Hm & Hd & Hh) Hlt.
  pose proof (days_in_month_bounds y m).
  pose proof (days_in_month_bounds y (m + 1)).
  pose proof (days_in_month_bounds (y + 1) 1).
  destruct (Z.ltb_spec h 23); simpl; [lia|].
  destruct (Z.ltb_spec d (days_in_month y m)); simpl; [lia|].
  destruct (Z.ltb_spec m 12); simpl; lia.
Qed.

Lemma days_before_year_mono (y1 y2 : Z) :
  y1 <= y2 -> days_before_year y1 <= days_before_year y2.
Proof. unfold days_before_year. intros H. Z.div_mod_to_equations. lia. Qed.

Lemma days_before_month_bounds (y m : Z) :
  1 <= m <= 12 ->
  0 <= days_before_month y m /\
  days_before_month y m + days_in_month y m <= if is_leap y then 366 else 365.
Proof.
  intros H. each_month m H;
    unfold days_before_month, days_in_month; simpl; destruct (is_leap y); lia.
Qed.

Lemma days_before_month_lt (y m1 m2 : Z) :
  1 <= m1 <= 12 -> 1 <= m2 <= 12 -> m1 < m2 ->
  days_before_month y m1 + days_in_month y m1 <= days_before_month y m2.
Proof.
  intros H1 H2 Hlt.
  each_month m1 H1; each_month m2 H2; try lia;
    unfold days_before_month, days_in_month; simpl; destruct (is_leap y); lia.
Qed.

Lemma toordinal_bounds (t : datetime) :
  valid_datetime t ->
  days_before_year (year t) < toordinal t <= days_before_year (year t + 1).
Proof.
  intros (Hy & Hm & Hd & Hh). unfold toordinal.
  pose proof (days_before_month_bounds (year t) (month t) Hm).
  rewrite days_before_year_succ. lia.
Qed.

(** Distinct valid timestamps lie at distinct points of the time axis. *)
Lemma to_hours_inj (t1 t2 : datetime) :
  valid_datetime t1 -> valid_datetime t2 -> to_hours t1 = to_hours t2 -> t1 = t2.
Proof.
  intros V1 V2 E.
  pose proof (toordinal_bounds t1 V1) as B1.
  pose proof (toordinal_bounds t2 V2) as B2.
  destruct V1 as (Hy1 & Hm1 & Hd1 & Hh1), V2 as (Hy2 & Hm2 & Hd2 & Hh2).
  unfold to_hours in E.
  assert (Eo : toordinal t1 = toordinal t2) by lia.
  assert (Eh : hour t1 = hour t2) by lia.
  assert (Ey : year t1 = year t2).
  { destruct (Z.lt_trichotomy (year t1) (year t2)) as [L|[?|L]]; [|assumption|].
    - pose proof (days_before_year_mono (year t1 + 1) (year t2)). lia.
    - pose proof (days_before_year_mono (year t2 + 1) (year t1)). lia. }
  unfold toordinal in Eo. rewrite Ey in *.
  assert (Em : month t1 = month t2).
  { destruct (Z.lt_trichotomy (month t1) (month t2)) as [L|[?|L]]; [|assumption|].
    - pose proof (days_before_month_lt (year t2) _ _ Hm1 Hm2 L). lia.
    - pose proof (days_before_month_lt (year t2) _ _ Hm2 Hm1 L). lia. }
  rewrite Em in *.
  destruct t1, t2; simpl in *; f_equal; lia.
Qed.

Lemma add_hour_valid_before (t e : datetime) :
  valid_datetime t -> valid_datetime e -> to_hours t < to_hours e ->
  valid_datetime (add_hour t).
Proof.
  intros Vt Ve Hlt.
  destruct (Z.lt_ge_cases (year t) 9999) as [Hy|Hy]; [by apply add_hour_valid|].
  pose proof (toordinal_bounds e Ve) as Be.
  pose proof (days_before_year_mono (year e + 1) 10000) as Mo.
  destruct Ve as (Hye & _ & _ & Hhe).
  destruct Vt as (Hyt & Hm & Hd & Hh).
  assert (year t = 9999) as Ey by lia.
  pose proof (days_in_month_bounds (year t) (month t)).
  pose proof (days_in_month_bounds (year t) (month t + 1)).
  unfold to_hours, toordinal in Hlt.
  destruct t as [y m d h]; simpl in *; subst y.
  unfold valid_datetime, add_hour; simpl.
  destruct (Z.ltb_spec h 23); simpl; [lia|].
  destruct (Z.ltb_spec d (days_in_month 9999 m)); simpl; [lia|].
  destruct (Z.ltb_spec m 12); simpl; [lia|].
  exfalso. assert (m = 12) by lia; subst m.
  pose proof (days_before_month_12 9999) as D12.
  pose proof (days_before_year_succ 9999) as S9.
  change (9999 + 1) with 10000 in S9.
  unfold toordinal in Be. destruct (is_leap 9999); lia.
Qed.

Lemma hourly_length (n : nat) (t : datetime) : length (hourly n t) = n.
Proof. revert t; induction n; intros; simpl; auto. Qed.

(** [hourly n t], when it ends no later than the valid timestamp [e],
    holds valid timestamps, the i-th of them i hours after [t]. *)
Lemma hourly_spec (n : nat) (t e : datetime) :
  valid_datetime t -> valid_datetime e ->
  to_hours t + Z.of_nat n - 1 <= to_hours e ->
  Forall valid_datetime (hourly n t) /\
  forall (i : nat) u, hourly n t !! i = Some u -> to_hours u = to_hours t + Z.of_nat i.
Proof.
  revert t; induction n as [|n IH]; intros t Vt Ve Hle; simpl.
  - split; [constructor|]. intros i u H; discriminate.
  - destruct n as [|n'].
    + simpl. split; [constructor; [exact Vt|constructor]|].
      intros [|i] u H; simpl in H; [|discriminate].
      injection H as <-. lia.
    + assert (Vn : valid_datetime (add_hour t)).
      { apply (add_hour_valid_before t e); auto; lia. }
      destruct Vt as (Hy & Hm & Hd & Hh).
      pose proof (to_hours_add_hour t Hm (proj2 Hd) (proj2 Hh)) as Hs.
      destruct (IH (add_hour t) Vn Ve) as [IH1 IH2]; [lia|].
      split; [constructor; [unfold valid_datetime; tauto|exact IH1]|].
      intros [|i] u H.
      * simpl in H. injection H as <-. lia.
      * change ((t :: hourly (S n') (add_hour t)) !! S i) with (hourly (S n') (add_hour t) !! i) in H.
        rewrite (IH2 i u H). lia.
Qed.

Lemma hourly_range_length (s e : datetime) :
  length (hourly_range s e) = Z.to_nat (to_hours e - to_hours s + 1).
Proof. apply hourly_length. Qed.

Lemma hourly_range_empty (s e : datetime) :
  to_hours e < to_hours s -> hourly_range s e = [].
Proof.
  intros H. unfold hourly_range.
  replace (Z.to_nat (to_hours e - to_hours s + 1)) with O by lia. reflexivity.
Qed.

Lemma hourly_range_spec (s e : datetime) :
  valid_datetime s -> valid_datetime e ->
  Forall valid_datetime (hourly_range s e) /\
  forall (i : nat) u, hourly_range s e !! i = Some u -> to_hours u = to_hours s + Z.of_nat i.
Proof.
  intros Vs Ve. unfold hourly_range.
  destruct (Z.lt_ge_cases (to_hours e) (to_hours s)).
  - replace (Z.to_nat (to_hours e - to_hours s + 1)) with O by lia.
    split; [constructor|]. intros i u Hi; discriminate.
  - apply (hourly_spec _ s e); auto. lia.
Qed.

(** The expanded range holds exactly the hourly timestamps from start to
    end, both included. *)
Lemma elem_of_hourly_range (s e t : datetime) :
  valid_datetime s -> valid_datetime e -> valid_datetime t ->
  t ∈ hourly_range s e <-> to_hours s <= to_hours t <= to_hours e.
Proof.
  intros Vs Ve Vt.
  destruct (hourly_range_spec s e Vs Ve) as [Hv Hi].
  pose proof (hourly_range_length s e) as Hl.
  split.
  - intros [i Hu]%list_elem_of_lookup.
    pose proof (lookup_lt_Some _ _ _ Hu).
    rewrite (Hi i t Hu). lia.
  - intros Hb.
    destruct (lookup_lt_is_Some_2 (hourly_range s e) (Z.to_nat (to_hours t - to_hours s)))
      as [u Hu]; [lia|].
    assert (u = t) as ->.
    { apply to_hours_inj; auto.
      - rewrite Forall_forall in Hv. apply Hv.
        apply list_elem_of_lookup. eauto.
      - rewrite (Hi _ _ Hu). lia. }
    apply list_elem_of_lookup. eauto.
Qed.

(** ** Strings and the path builder *)

Lemma forallb_below (P : Z -> bool) (N : Z) :
  forallb P (Z.of_nat <$> seq 0 (Z.to_nat N)) = true ->
  forall n, 0 <= n < N -> P n = true.
Proof.
  intros H n Hn. rewrite forallb_forall in H. apply H.
  apply list_elem_of_In, list_elem_of_fmap. exists (Z.to_nat n). split; [lia|].
  apply list_elem_of_In, in_seq. lia.
Qed.

Lemma strftime_year (y : Z) :
  1000 <= y <= 9999 ->
  decimal y =
  String (digit_char (y / 1000)) (String (digit_char (y / 100))
    (String (digit_char (y / 10)) (String (digit_char y) ""))).
Proof.
  intros H. apply String.eqb_eq.
  pose proof (forallb_below
           (fun y => (y <? 1000) || String.eqb (decimal y)
              (String (digit_char (y / 1000)) (String (digit_char (y / 100))
                (String (digit_char (y / 10)) (String (digit_char y) "")))))
           10000 ltac:(vm_compute; reflexivity) y ltac:(lia)) as Hy.
  cbv beta in Hy. destruct (Z.ltb_spec y 1000); [lia | exact Hy].
Qed.

Lemma strftime_two_digits (n : Z) :
  0 <= n <= 99 ->
  zfill 2 (decimal n) = String (digit_char (n / 10)) (String (digit_char n) "").
Proof.
  intros H. apply String.eqb_eq.
  apply (forallb_below
           (fun n => String.eqb (zfill 2 (decimal n))
              (String (digit_char (n / 10)) (String (digit_char n) "")))
           100); [vm_compute; reflexivity | lia].
Qed.

Lemma strftime_valid (t : datetime) :
  four_digit_year t -> strftime_YmdH t = date_YYYYMMDD t +:+ hour_HH t.
Proof.
  intros [(Hy & Hm & Hd & Hh) Hy4].
  pose proof (days_in_month_bounds (year t) (month t)).
  unfold strftime_YmdH.
  rewrite strftime_year by lia.
  rewrite !strftime_two_digits by lia.
  reflexivity.
Qed.

Lemma day_and_hour_slices (t : datetime) :
  slice_to 8 (date_YYYYMMDD t +:+ hour_HH t) = date_YYYYMMDD t /\
  slice_last 2 (date_YYYYMMDD t +:+ hour_HH t) = hour_HH t.
Proof. split; reflexivity. Qed.

Lemma get_gsi_fps_cons (path var anl_ges : string) (t : datetime) (ts : list datetime) :
  get_gsi_fps path var anl_ges (t :: ts) =
  (let day_str := slice_to 8 (strftime_YmdH t) in
   let hour_str := slice_last 2 (strftime_YmdH t) in
   path +:+ "/RTMA_CONUS." +:+ day_str +:+ "/" +:+ hour_str +:+
   "/diag_conv_" +:+ var +:+ "_" +:+ anl_ges +:+ "." +:+
   day_str +:+ hour_str +:+ ".nc4.gz") :: get_gsi_fps path var anl_ges ts.
Proof. reflexivity. Qed.

Lemma get_gsi_fps_length (path var anl_ges : string) (ts : list datetime) :
  length (get_gsi_fps path var anl_ges ts) = length ts.
Proof.
  unfold get_gsi_fps. rewrite length_fmap, length_zip, !length_fmap. lia.
Qed.

Lemma get_gsi_fps_template (path var anl_ges : string) (ts : list datetime) :
  Forall four_digit_year ts ->
  get_gsi_fps path var anl_ges ts = path_template path var anl_ges <$> ts.
Proof.
  induction 1 as [|t ts Vt _ IH]; [reflexivity|].
  rewrite get_gsi_fps_cons, IH, (strftime_valid t Vt).
  destruct (day_and_hour_slices t) as [-> ->]. reflexivity.
Qed.

(** ** The effect monad *)

Lemma bind_ret_l {A B} (a : A) (k : A -> M B) : bind (ret a) k = k a.
Proof. unfold bind, ret. destruct (k a); reflexivity. Qed.

Lemma bind_ret_r {A} (m : M A) : bind m ret = m.
Proof. destruct m as [t [a|e]]; simpl; [rewrite app_nil_r|]; reflexivity. Qed.

Lemma bind_assoc {A B C} (m : M A) (f : A -> M B) (g : B -> M C) :
  bind (bind m f) g = bind m (fun x => bind (f x) g).
Proof.
  destruct m as [t [a|e]]; simpl; [|reflexivity].
  destruct (f a) as [t1 [b|e]]; simpl; [|reflexivity].
  destruct (g b) as [t2 o]. rewrite app_assoc. reflexivity.
Qed.

Lemma bind_ext {A B} (m : M A) (f g : A -> M B) :
  (forall a, f a = g a) -> bind m f = bind m g.
Proof. intros H. destruct m as [t [a|e]]; simpl; [rewrite H|]; reflexivity. Qed.

Lemma bind_return {A B} (t : list event) (a : A) (k : A -> M B) :
  bind (t, Return a) k = (t ++ trace (k a), result (k a)).
Proof. simpl. destruct (k a); reflexivity. Qed.

Lemma bind_raise {A B} (t : list event) (e : exn) (k : A -> M B) :
  bind (t, Raise e) k = (t, Raise e).
Proof. reflexivity. Qed.

Lemma mapM_app {A B} (f : A -> M B) (l1 l2 : list A) :
  mapM f (l1 ++ l2) =
  (xs <~ mapM f l1 ;; ys <~ mapM f l2 ;; ret (xs ++ ys)).
Proof.
  induction l1 as [|x l1 IH]; cbn [mapM app].
  - rewrite bind_ret_l. symmetry. apply (bind_ret_r (mapM f l2)).
  - rewrite !bind_assoc. apply bind_ext; intros y.
    rewrite IH, !bind_assoc. apply bind_ext; intros xs.
    rewrite bind_ret_l, bind_assoc. apply bind_ext; intros ys.
    rewrite bind_ret_l. reflexivity.
Qed.

Lemma mapM_length {A B} (f : A -> M B) (l : list A) (t : list event) (ys : list B) :
  mapM f l = (t, Return ys) -> length ys = length l.
Proof.
  revert t ys; induction l as [|x l IH]; simpl; intros t ys H.
  - injection H as _ <-. reflexivity.
  - destruct (f x) as [t1 [y|e]]; simpl in H; [|discriminate].
    destruct (mapM f l) as [t2 [ys'|e]] eqn:E; simpl in H; [|discriminate].
    injection H as _ <-. simpl. f_equal. eapply IH. reflexivity.
Qed.

(** ** The series extractor *)

Lemma get_omfs_step_spec fs station_ids obs_types (i : nat) (fp : string)
  (hourly_omf : list float) :
  get_omfs_step fs station_ids obs_types i fp hourly_omf =
  (v <~ file_value fs station_ids obs_types fp ;; ret (<[i := v]> hourly_omf)).
Proof.
  unfold get_omfs_step, file_value, Conventional_get_data, filtered_omf.
  destruct (fs fp) as [df|e]; simpl.
  - destruct (omf_adjusted <$> filter_df [df] station_ids obs_types); reflexivity.
  - destruct (is_FileNotFoundError e); reflexivity.
Qed.

(** The loop over [enumerate(fps)] that fills the array in place gives the
    values of the files, in order. *)
Lemma get_omfs_loop_spec fs station_ids obs_types (fps : list string) :
  forall done todo : list float,
  length todo = length fps ->
  get_omfs_loop fs station_ids obs_types
    (zip (seq (length done) (length fps)) fps) (done ++ todo) =
  (vs <~ mapM (file_value fs station_ids obs_types) fps ;; ret (done ++ vs)).
Proof.
  induction fps as [|fp fps IH]; intros done todo Hlen.
  - destruct todo; [|discriminate]. simpl. rewrite app_nil_r. reflexivity.
  - destruct todo as [|x todo]; [discriminate|].
    cbn [length seq zip zip_with get_omfs_loop mapM].
    rewrite get_omfs_step_spec, !bind_assoc.
    apply bind_ext; intros v.
    rewrite bind_ret_l, bind_assoc.
    replace (<[length done := v]> (done ++ x :: todo)) with ((done ++ [v]) ++ todo).
    2:{ rewrite <- (Nat.add_0_r (length done)), insert_app_r, <- app_assoc. reflexivity. }
    replace (S (length done)) with (length (done ++ [v])) by (rewrite length_app; simpl; lia).
    rewrite IH by (simpl in Hlen; lia).
    apply bind_ext; intros vs.
    rewrite bind_ret_l, <- app_assoc. reflexivity.
Qed.

Lemma get_omfs_mapM fs (fps : list string) station_ids obs_types :
  get_omfs fs fps station_ids obs_types = mapM (file_value fs station_ids obs_types) fps.
Proof.
  unfold get_omfs, enumerate.
  etransitivity.
  - apply (get_omfs_loop_spec fs station_ids obs_types fps [] (replicate (length fps) 0%float)).
    apply length_replicate.
  - apply (bind_ret_r (mapM (file_value fs station_ids obs_types) fps)).
Qed.

(** The extraction of a list of paths, split at one of its positions. *)
Lemma get_omfs_split fs station_ids obs_types (pre : list string) (fp : string)
  (post : list string) :
  get_omfs fs (pre ++ fp :: post) station_ids obs_types =
  (xs <~ get_omfs fs pre station_ids obs_types ;;
   v <~ file_value fs station_ids obs_types fp ;;
   ys <~ get_omfs fs post station_ids obs_types ;;
   ret (xs ++ v :: ys)).
Proof.
  rewrite !get_omfs_mapM, mapM_app. apply bind_ext; intros xs.
  cbn [mapM]. rewrite !bind_assoc. apply bind_ext; intros v.
  rewrite bind_assoc. apply bind_ext; intros ys.
  rewrite !bind_ret_l. reflexivity.
Qed.

Lemma get_omfs_length fs (fps : list string) station_ids obs_types t series :
  get_omfs fs fps station_ids obs_types = (t, Return series) ->
  length series = length fps.
Proof. rewrite get_omfs_mapM. apply mapM_length. Qed.

(** Where a position returns the value [v] with the trace [tv], the
    extraction goes on with the later paths. *)
Lemma get_omfs_continue fs station_ids obs_types pre fp post t1 xs tv v :
  get_omfs fs pre station_ids obs_types = (t1, Return xs) ->
  file_value fs station_ids obs_types fp = (tv, Return v) ->
  get_omfs fs (pre ++ fp :: post) station_ids obs_types =
  (t1 ++ tv ++ trace (get_omfs fs post station_ids obs_types),
   match result (get_omfs fs post station_ids obs_types) with
   | Return ys => Return (xs ++ v :: ys)
   | Raise e => Raise e
   end).
Proof.
  intros Hpre Hv. rewrite get_omfs_split, Hpre, bind_return, Hv, bind_return.
  destruct (get_omfs fs post station_ids obs_types) as [t2 [ys|e]]; simpl;
    rewrite ?app_nil_r; reflexivity.
Qed.

(** Where a position raises, the extraction stops there. *)
Lemma get_omfs_abort fs station_ids obs_types pre fp post t1 xs tv e :
  get_omfs fs pre station_ids obs_types = (t1, Return xs) ->
  file_value fs station_ids obs_types fp = (tv, Raise e) ->
  get_omfs fs (pre ++ fp :: post) station_ids obs_types = (t1 ++ tv, Raise e).
Proof.
  intros Hpre Hv. rewrite get_omfs_split, Hpre, bind_return, Hv. reflexivity.
Qed.

(** On a disk with no unexpected error the extraction returns. *)
Lemma get_omfs_returns fs (fps : list string) station_ids obs_types :
  no_unexpected_error fs ->
  exists t series, get_omfs fs fps station_ids obs_types = (t, Return series).
Proof.
  intros Hfs. rewrite get_omfs_mapM.
  induction fps as [|fp fps (t & ys & IH)]; simpl; [by eexists _, _|].
  assert (exists tv v, file_value fs station_ids obs_types fp = (tv, Return v))
    as (tv & v & ->).
  { unfold file_value. destruct (fs fp) as [df|e] eqn:E; [by eexists _, _|].
    rewrite (Hfs fp e E). by eexists _, _. }
  rewrite bind_return, IH. by eexists _, _.
Qed.

Lemma reads_app (t1 t2 : list event) : reads (t1 ++ t2) = reads t1 ++ reads t2.
Proof. apply omap_app. Qed.

Lemma reads_file_value fs station_ids obs_types (fp : string) :
  reads (trace (file_value fs station_ids obs_types fp)) = [fp].
Proof.
  unfold file_value. destruct (fs fp) as [df|e].
  - destruct (filtered_omf df station_ids obs_types); reflexivity.
  - destruct (is_FileNotFoundError e); reflexivity.
Qed.

(** An extraction that returns has read every path, once each, in order. *)
Lemma reads_get_omfs fs (fps : list string) station_ids obs_types t series :
  get_omfs fs fps station_ids obs_types = (t, Return series) -> reads t = fps.
Proof.
  rewrite get_omfs_mapM. revert t series.
  induction fps as [|fp fps IH]; intros t series H.
  - injection H as <- _. reflexivity.
  - cbn [mapM] in H.
    pose proof (reads_file_value fs station_ids obs_types fp) as Hr.
    destruct (file_value fs station_ids obs_types fp) as [tv [v|e]]; [|discriminate].
    rewrite bind_return in H.
    destruct (mapM (file_value fs station_ids obs_types) fps) as [t2 [ys|e]] eqn:E;
      [|discriminate].
    simpl in H. injection H as <- _.
    rewrite app_nil_r, reads_app. simpl in Hr. rewrite Hr, (IH t2 ys eq_refl).
    reflexivity.
Qed.

Lemma nan_is_not_zero : nan <> 0%float.
Proof.
  intros H. assert (E : is_nan nan = is_nan 0%float) by (rewrite H; reflexivity).
  vm_compute in E. discriminate.
Qed.

Lemma neg_zero_add_l (x : float) : (neg_zero + x)%float = x.
Proof.
  rewrite <- (SF2Prim_Prim2SF (neg_zero + x)), add_spec.
  change (Prim2SF neg_zero) with (S754_zero true).
  rewrite <- (SF2Prim_Prim2SF x) at 2. f_equal.
  unfold SF64add, SFadd. destruct (Prim2SF x) as [[]|[]| |[] m e]; reflexivity.
Qed.

Lemma pairwise_sum_small (fuel : nat) (a : list float) :
  (length a < 8)%nat -> pairwise_sum fuel a = sum_from neg_zero a.
Proof.
  intros H. apply Nat.ltb_lt in H. destruct fuel; cbn [pairwise_sum]; by rewrite H.
Qed.

Lemma pairwise_sum_block (fuel : nat) (a : list float) :
  (8 <= length a <= 128)%nat -> pairwise_sum fuel a = block_sum a.
Proof.
  intros [H1 H2]. apply Nat.ltb_ge in H1. apply Nat.leb_le in H2.
  destruct fuel; cbn [pairwise_sum]; by rewrite H1, ?H2.
Qed.

(** The result of the recursion does not depend on the fuel once there is
    as much of it as there are values. *)
Lemma pairwise_sum_fuel (fuel1 : nat) :
  forall (fuel2 : nat) (a : list float),
  (length a <= fuel1)%nat -> (length a <= fuel2)%nat ->
  pairwise_sum fuel1 a = pairwise_sum fuel2 a.
Proof.
  induction fuel1 as [|f1 IH]; intros fuel2 a H1 H2.
  - rewrite !pairwise_sum_small by lia. reflexivity.
  - destruct (Nat.ltb_spec (length a) 8) as [Hs|Hs].
    { rewrite !pairwise_sum_small by lia. reflexivity. }
    destruct (Nat.leb_spec (length a) 128) as [Hb|Hb].
    { rewrite !pairwise_sum_block by lia. reflexivity. }
    destruct fuel2 as [|f2]; [lia|].
    cbn [pairwise_sum].
    apply Nat.ltb_ge in Hs as Hs'. apply Nat.leb_gt in Hb as Hb'.
    rewrite Hs', Hb'.
    assert (Hn2 : (57 <= length a / 2 - (length a / 2) mod 8 < length a)%nat).
    { pose proof (Nat.Div0.mod_le (length a / 2) 8).
      pose proof (Nat.mod_upper_bound (length a / 2) 8 ltac:(discriminate)).
      pose proof (Nat.Div0.div_le_upper_bound (length a) 2 (length a)).
      assert (64 <= length a / 2)%nat by (apply Nat.div_le_lower_bound; lia).
      assert (length a / 2 < length a)%nat by (apply Nat.div_lt; lia).
      lia. }
    f_equal; apply IH; rewrite ?length_take, ?length_drop; lia.
Qed.

Lemma zero_add_l (x : float) : x <> neg_zero -> (0 + x)%float = x.
Proof.
  intros Hx.
  rewrite <- (SF2Prim_Prim2SF (0 + x)), add_spec.
  change (Prim2SF 0) with (S754_zero false).
  rewrite <- (SF2Prim_Prim2SF x) at 2. f_equal.
  unfold SF64add, SFadd.
  destruct (Prim2SF x) as [[]|[]| |[] m e] eqn:E; try reflexivity.
  exfalso. apply Hx. rewrite <- (SF2Prim_Prim2SF x), E. reflexivity.
Qed.

(** For fewer than 8 values, none of them not-a-number, the mean pandas
    takes is their arithmetic mean, added left to right, unless they add
    up to -0.0. *)
Lemma pd_mean_no_nan (values : list float) :
  Forall (fun x => is_nan x = false) values ->
  (length values < 8)%nat ->
  left_sum values <> neg_zero ->
  pd_mean values = arithmetic_mean values.
Proof.
  intros Hall Hlen Hsum. unfold pd_mean, arithmetic_mean.
  assert (Hfill : (fun x => if is_nan x then 0%float else x) <$> values = values).
  { clear Hlen Hsum. induction Hall as [|x l Hx _ IH]; [reflexivity|].
    cbn [fmap list_fmap]. rewrite Hx. f_equal. apply IH. }
  assert (Hkeep : List.filter (fun x => negb (is_nan x)) values = values).
  { clear Hfill Hlen Hsum. induction Hall as [|x l Hx _ IH]; [reflexivity|].
    cbn [List.filter]. rewrite Hx. cbn [negb]. f_equal. apply IH. }
  rewrite Hfill, Hkeep.
  destruct values as [|x rest]; [reflexivity|].
  cbn [length Nat.ltb Nat.leb]. unfold np_sum.
  rewrite pairwise_sum_small by exact Hlen.
  unfold sum_from. cbn [fold_left]. rewrite neg_zero_add_l.
  cbn [left_sum] in Hsum |- *. by rewrite zero_add_l.
Qed.

(** ** The claims *)

(** C5, as the specification states it, fails: for a timestamp before the
    year 1000 [strftime] prints a year of fewer than four digits, the slice
    [s[:8]] runs into the hour, and the path is not the template with the
    8-digit date of the timestamp. *)
Lemma path_template_counterexample :
  ~ (forall (root var anl_ges : string) (date_times : list datetime),
       Forall valid_datetime date_times ->
       get_gsi_fps root var anl_ges date_times
         = path_template root var anl_ges <$> date_times).
Proof.
  intros H.
  assert (V : Forall valid_datetime [DT 999 1 2 3]).
  { apply Forall_cons_2; [unfold valid_datetime; simpl; lia | apply Forall_nil_2]. }
  specialize (H "/d" "t" "ges" [DT 999 1 2 3] V).
  vm_compute in H. discriminate H.
Qed.

(** C5, amended.  For timestamps from the year 1000 on, as all those of a
    [DatetimeIndex] at nanosecond resolution are, the path builder returns
    one path per timestamp, in the order of the timestamps, each the
    template
    [{root}/RTMA_CONUS.{YYYYMMDD}/{HH}/diag_conv_{var}_{anl_ges}.{YYYYMMDD}{HH}.nc4.gz]
    with the 8-digit date and the 2-digit hour of its timestamp.  It is a
    function of its four arguments alone: it takes no disk and emits no
    event. *)
Theorem get_gsi_fps_correct (root var anl_ges : string) (date_times : list datetime) :
  Forall four_digit_year date_times ->
  get_gsi_fps root var anl_ges date_times = path_template root var anl_ges <$> date_times /\
  length (get_gsi_fps root var anl_ges date_times) = length date_times /\
  (forall (i : nat) t, date_times !! i = Some t ->
     get_gsi_fps root var anl_ges date_times !! i = Some (path_template root var anl_ges t) /\
     String.length (date_YYYYMMDD t) = 8%nat /\ String.length (hour_HH t) = 2%nat).
Proof.
  intros Hv. split; [by apply get_gsi_fps_template|].
  split; [apply get_gsi_fps_length|].
  intros i t Hi. rewrite get_gsi_fps_template by assumption.
  rewrite list_lookup_fmap, Hi. auto.
Qed.

Lemma get_gsi_fps_correct_witness :
  Forall four_digit_year [DT 2024 12 31 23; DT 2025 1 1 0] /\
  get_gsi_fps "/data" "t" "ges" [DT 2024 12 31 23; DT 2025 1 1 0] =
  ["/data/RTMA_CONUS.20241231/23/diag_conv_t_ges.2024123123.nc4.gz";
   "/data/RTMA_CONUS.20250101/00/diag_conv_t_ges.2025010100.nc4.gz"].
Proof.
  assert (V : Forall four_digit_year [DT 2024 12 31 23; DT 2025 1 1 0]).
  { repeat apply Forall_cons_2; try apply Forall_nil_2;
      unfold four_digit_year, valid_datetime; simpl; lia. }
  split; [exact V|].
  exact (proj1 (get_gsi_fps_correct "/data" "t" "ges" _ V)).
Defined.

(** C2. When the read at a position fails with file-not-found, the
    extractor records not-a-number at that position and goes on with every
    later path, exactly as it would process them on their own; the result
    raises only if a later path does. *)
Theorem get_omfs_file_not_found fs station_ids obs_types
  (pre : list string) (fp : string) (post : list string) (e : exn)
  (t1 : list event) (xs : list float) :
  get_omfs fs pre station_ids obs_types = (t1, Return xs) ->
  fs fp = Raise e -> is_FileNotFoundError e = true ->
  get_omfs fs (pre ++ fp :: post) station_ids obs_types =
    (t1 ++ EvRead fp :: trace (get_omfs fs post station_ids obs_types),
     match result (get_omfs fs post station_ids obs_types) with
     | Return ys => Return (xs ++ nan :: ys)
     | Raise e' => Raise e'
     end) /\
  (forall t series,
     get_omfs fs (pre ++ fp :: post) station_ids obs_types = (t, Return series) ->
     series !! length pre = Some nan /\
     length series = length (pre ++ fp :: post) /\
     reads t = pre ++ fp :: post).
Proof.
  intros Hpre Hfp Hnf.
  assert (Hv : file_value fs station_ids obs_types fp = ([EvRead fp], Return nan)).
  { unfold file_value. rewrite Hfp, Hnf. reflexivity. }
  pose proof (get_omfs_continue fs station_ids obs_types pre fp post t1 xs _ _ Hpre Hv) as E.
  split; [exact E|].
  intros t series H.
  split; [|split; [eapply get_omfs_length | eapply reads_get_omfs]; exact H].
  rewrite E in H.
  destruct (result (get_omfs fs post station_ids obs_types)) as [ys|e']; [|discriminate].
  injection H as _ <-.
  rewrite <- (get_omfs_length _ _ _ _ _ _ Hpre).
  apply list_lookup_middle. reflexivity.
Qed.

Lemma get_omfs_file_not_found_witness :
  get_omfs disk_hours_00_02 ([ges_path "00"] ++ ges_path "01" :: [ges_path "02"]) None None =
  ([EvRead (ges_path "00"); EvRead (ges_path "01"); EvRead (ges_path "02")],
   Return [3%float; nan; 3.5%float]).
Proof.
  exact (proj1 (get_omfs_file_not_found disk_hours_00_02 None None
                  [ges_path "00"] (ges_path "01") [ges_path "02"]
                  (not_found (ges_path "01")) [EvRead (ges_path "00")] [3%float]
                  eq_refl eq_refl eq_refl)).
Defined.

(** C3. When a file is read and the filters exclude all of its rows, the
    extractor prints its notice, records not-a-number (which is not zero)
    at that position and goes on: the mean of no rows raises nothing. *)
Theorem get_omfs_all_rows_excluded fs station_ids obs_types
  (pre : list string) (fp : string) (post : list string) (df : dataframe)
  (t1 : list event) (xs : list float) :
  get_omfs fs pre station_ids obs_types = (t1, Return xs) ->
  fs fp = Return df ->
  filter_df [df] station_ids obs_types = [] ->
  get_omfs fs (pre ++ fp :: post) station_ids obs_types =
    (t1 ++ EvRead fp :: EvPrint "Filter combination yields no results" ::
       trace (get_omfs fs post station_ids obs_types),
     match result (get_omfs fs post station_ids obs_types) with
     | Return ys => Return (xs ++ nan :: ys)
     | Raise e' => Raise e'
     end) /\
  (forall t series,
     get_omfs fs (pre ++ fp :: post) station_ids obs_types = (t, Return series) ->
     exists v, series !! length pre = Some v /\ is_nan v = true /\ v <> 0%float).
Proof.
  intros Hpre Hfp Hnone.
  assert (Hv : file_value fs station_ids obs_types fp =
               ([EvRead fp; EvPrint "Filter combination yields no results"], Return nan)).
  { unfold file_value, filtered_omf. rewrite Hfp, Hnone. reflexivity. }
  pose proof (get_omfs_continue fs station_ids obs_types pre fp post t1 xs _ _ Hpre Hv) as E.
  split; [exact E|].
  intros t series H. exists nan.
  split; [|split; [reflexivity | exact nan_is_not_zero]].
  rewrite E in H.
  destruct (result (get_omfs fs post station_ids obs_types)) as [ys|e']; [|discriminate].
  injection H as _ <-.
  rewrite <- (get_omfs_length _ _ _ _ _ _ Hpre).
  apply list_lookup_middle. reflexivity.
Qed.

Lemma get_omfs_all_rows_excluded_witness :
  filter_df [rows_135] (Some ["KLAX"]) (Some [187; 181]) = [] /\
  get_omfs disk_hours_00_02 ([] ++ ges_path "00" :: [ges_path "02"])
    (Some ["KLAX"]) (Some [187; 181]) =
  ([EvRead (ges_path "00"); EvPrint "Filter combination yields no results";
    EvRead (ges_path "02"); EvPrint "Filter combination yields no results"],
   Return [nan; nan]).
Proof.
  split; [reflexivity|].
  exact (proj1 (get_omfs_all_rows_excluded disk_hours_00_02 (Some ["KLAX"]) (Some [187; 181])
                  [] (ges_path "00") [ges_path "02"] rows_135 [] []
                  eq_refl eq_refl eq_refl)).
Defined.

(** C4, as the specification states it, fails: a not-a-number among the
    filtered values is skipped by the mean the code takes, while it makes
    the arithmetic mean of the values not-a-number. *)
Lemma arithmetic_mean_counterexample :
  ~ (forall fs (fp : string) df station_ids obs_types,
       fs fp = Return df ->
       filtered_omf df station_ids obs_types <> [] ->
       result (get_omfs fs [fp] station_ids obs_types) =
       Return [arithmetic_mean (filtered_omf df station_ids obs_types)]).
Proof.
  intros H.
  specialize (H disk_nan_row "a.nc4.gz" rows_1_nan None None eq_refl).
  assert (Hne : filtered_omf rows_1_nan None None <> []) by discriminate.
  specialize (H Hne).
  apply (f_equal (fun o => match o with Return (x :: _) => is_nan x | _ => false end)) in H.
  vm_compute in H. discriminate.
Qed.

(** C4, amended.  For a file that is read and keeps some row, the recorded
    value is the mean pandas takes of the filtered adjusted-omf values: the
    float64 sum numpy forms of the values, each not-a-number counted as
    zero, over the number of values that are numbers.  For fewer than eight
    values, none of them not-a-number, that do not add up to -0.0, that is
    exactly their arithmetic mean x1 + ... + xn over n, added left to right;
    for the values 1.0, 3.0, 5.0 it is 3.0. *)
Theorem get_omfs_records_mean fs station_ids obs_types
  (pre : list string) (fp : string) (post : list string) (df : dataframe)
  (t1 : list event) (xs : list float) :
  get_omfs fs pre station_ids obs_types = (t1, Return xs) ->
  fs fp = Return df ->
  filtered_omf df station_ids obs_types <> [] ->
  let values := filtered_omf df station_ids obs_types in
  get_omfs fs (pre ++ fp :: post) station_ids obs_types =
    (t1 ++ EvRead fp :: trace (get_omfs fs post station_ids obs_types),
     match result (get_omfs fs post station_ids obs_types) with
     | Return ys => Return (xs ++ pd_mean values :: ys)
     | Raise e' => Raise e'
     end) /\
  (Forall (fun x => is_nan x = false) values -> (length values < 8)%nat ->
   left_sum values <> neg_zero ->
   pd_mean values = arithmetic_mean values) /\
  pd_mean [1; 3; 5]%float = 3%float.
Proof.
  intros Hpre Hfp Hsome values.
  assert (Hv : file_value fs station_ids obs_types fp = ([EvRead fp], Return (pd_mean values))).
  { unfold file_value. rewrite Hfp. cbv zeta. subst values.
    destruct (filtered_omf df station_ids obs_types); [contradiction|reflexivity]. }
  split; [|split].
  - exact (get_omfs_continue fs station_ids obs_types pre fp post t1 xs _ _ Hpre Hv).
  - apply pd_mean_no_nan.
  - reflexivity.
Qed.

Lemma get_omfs_records_mean_witness :
  filtered_omf rows_135 None None = [1; 3; 5]%float /\
  get_omfs disk_hours_00_02 ([] ++ ges_path "00" :: []) None None =
  ([EvRead (ges_path "00")], Return [3%float]).
Proof.
  split; [reflexivity|].
  exact (proj1 (get_omfs_records_mean disk_hours_00_02 None None
                  [] (ges_path "00") [] rows_135 [] []
                  eq_refl eq_refl ltac:(discriminate))).
Defined.

(** From eight values on the sum is no longer formed left to right: for
    eight times 0.1 the recorded mean is 0.1, where the values added one
    after the other and divided by eight give 0.09999999999999999. *)
Example pd_mean_eight_values :
  pd_mean (replicate 8 0x1.999999999999ap-4%float) = 0x1.999999999999ap-4%float /\
  arithmetic_mean (replicate 8 0x1.999999999999ap-4%float) = 0x1.9999999999999p-4%float.
Proof. split; vm_compute; reflexivity. Qed.

(** C6. When the read at a position raises anything but file-not-found, the
    extractor prints the error and raises it again: the call returns no
    series, and no later path is read. *)
Theorem get_omfs_unexpected_error fs station_ids obs_types
  (pre : list string) (fp : string) (post : list string) (e : exn)
  (t1 : list event) (xs : list float) :
  get_omfs fs pre station_ids obs_types = (t1, Return xs) ->
  fs fp = Raise e -> is_FileNotFoundError e = false ->
  get_omfs fs (pre ++ fp :: post) station_ids obs_types =
    (t1 ++ [EvRead fp; EvPrint ("Unknown error occurred: " +:+ exn_msg e)], Raise e) /\
  reads (trace (get_omfs fs (pre ++ fp :: post) station_ids obs_types)) = pre ++ [fp].
Proof.
  intros Hpre Hfp Hnf.
  assert (Hv : file_value fs station_ids obs_types fp =
               ([EvRead fp; EvPrint ("Unknown error occurred: " +:+ exn_msg e)], Raise e)).
  { unfold file_value. rewrite Hfp, Hnf. reflexivity. }
  pose proof (get_omfs_abort fs station_ids obs_types pre fp post t1 xs _ _ Hpre Hv) as E.
  split; [exact E|].
  rewrite E. unfold trace; simpl fst.
  rewrite reads_app, (reads_get_omfs _ _ _ _ _ _ Hpre). reflexivity.
Qed.

Lemma get_omfs_unexpected_error_witness :
  get_omfs disk_corrupt (["a.nc4.gz"] ++ "b.nc4.gz" :: ["c.nc4.gz"]) None None =
  ([EvRead "a.nc4.gz"; EvRead "b.nc4.gz";
    EvPrint "Unknown error occurred: Not a gzipped file"],
   Raise (Exn (OtherException "OSError") "Not a gzipped file")).
Proof.
  exact (proj1 (get_omfs_unexpected_error disk_corrupt None None
                  ["a.nc4.gz"] "b.nc4.gz" ["c.nc4.gz"]
                  (Exn (OtherException "OSError") "Not a gzipped file")
                  [EvRead "a.nc4.gz"] [3%float] eq_refl eq_refl eq_refl)).
Defined.

(** ** The orchestrator *)

Lemma allowed_modes_cases (anl_ges : string) :
  anl_ges ∈ allowed_modes <-> anl_ges = "anl" \/ anl_ges = "ges" \/ anl_ges = "both".
Proof. unfold allowed_modes. rewrite !elem_of_union, !elem_of_singleton. tauto. Qed.

Lemma collect_series_invalid_mode fs path var anl_ges s_time f_time station_ids obs_types :
  anl_ges ∉ allowed_modes ->
  collect_series fs path var anl_ges s_time f_time station_ids obs_types =
  ([], Raise (invalid_mode_error anl_ges)).
Proof.
  intros H. unfold collect_series.
  rewrite (bool_decide_eq_true_2 _ H). reflexivity.
Qed.

Lemma date_range_in_bounds (s e : datetime) :
  in_ns_bounds s = true -> in_ns_bounds e = true ->
  date_range s e = ret (hourly_range s e).
Proof. intros Hs He. unfold date_range. by rewrite Hs, He. Qed.

Lemma date_range_returns (s e : datetime) (date_times : list datetime) :
  date_range s e = ret date_times ->
  date_times = hourly_range s e /\ in_ns_bounds s = true /\ in_ns_bounds e = true.
Proof.
  unfold date_range.
  destruct (in_ns_bounds s), (in_ns_bounds e); try discriminate.
  intros H. injection H as <-. auto.
Qed.

Lemma date_range_outcome (s e : datetime) :
  date_range s e = ret (hourly_range s e) \/ date_range s e = raise out_of_bounds_error.
Proof. unfold date_range. destruct (_ && _); auto. Qed.

Lemma collect_series_out_of_bounds fs path var anl_ges s_time f_time station_ids obs_types
  (s e : datetime) :
  anl_ges ∈ allowed_modes ->
  normalize s_time = ret s -> normalize f_time = ret e ->
  date_range s e = raise out_of_bounds_error ->
  collect_series fs path var anl_ges s_time f_time station_ids obs_types
    = ([], Raise out_of_bounds_error).
Proof.
  intros Hmode Hs He Hd. unfold collect_series.
  rewrite bool_decide_eq_false_2 by tauto.
  rewrite bind_ret_l, Hs, bind_ret_l, He, bind_ret_l, Hd. reflexivity.
Qed.

Lemma collect_series_ges fs path var s_time f_time station_ids obs_types s e date_times :
  normalize s_time = ret s -> normalize f_time = ret e ->
  date_range s e = ret date_times ->
  collect_series fs path var "ges" s_time f_time station_ids obs_types =
  (ges <~ get_omfs fs (get_gsi_fps path var "ges" date_times) station_ids obs_types ;;
   ret (date_times, [("ges", ges)])).
Proof.
  intros Hs He Hd. unfold collect_series.
  rewrite bool_decide_eq_false_2 by (rewrite allowed_modes_cases; tauto).
  rewrite bind_ret_l, Hs, bind_ret_l, He, bind_ret_l, Hd, bind_ret_l.
  cbn [String.eqb Ascii.eqb Bool.eqb orb andb].
  rewrite !bind_assoc. apply bind_ext; intros ges.
  rewrite !bind_ret_l. reflexivity.
Qed.

Lemma collect_series_anl fs path var s_time f_time station_ids obs_types s e date_times :
  normalize s_time = ret s -> normalize f_time = ret e ->
  date_range s e = ret date_times ->
  collect_series fs path var "anl" s_time f_time station_ids obs_types =
  (anl <~ get_omfs fs (get_gsi_fps path var "anl" date_times) station_ids obs_types ;;
   ret (date_times, [("anl", anl)])).
Proof.
  intros Hs He Hd. unfold collect_series.
  rewrite bool_decide_eq_false_2 by (rewrite allowed_modes_cases; tauto).
  rewrite bind_ret_l, Hs, bind_ret_l, He, bind_ret_l, Hd, bind_ret_l.
  cbn [String.eqb Ascii.eqb Bool.eqb orb andb].
  rewrite bind_ret_l, !bind_assoc. apply bind_ext; intros anl.
  rewrite !bind_ret_l. reflexivity.
Qed.

Lemma collect_series_both fs path var s_time f_time station_ids obs_types s e date_times :
  normalize s_time = ret s -> normalize f_time = ret e ->
  date_range s e = ret date_times ->
  collect_series fs path var "both" s_time f_time station_ids obs_types =
  (ges <~ get_omfs fs (get_gsi_fps path var "ges" date_times) station_ids obs_types ;;
   anl <~ get_omfs fs (get_gsi_fps path var "anl" date_times) station_ids obs_types ;;
   ret (date_times, [("ges", ges); ("anl", anl)])).
Proof.
  intros Hs He Hd. unfold collect_series.
  rewrite bool_decide_eq_false_2 by (rewrite allowed_modes_cases; tauto).
  rewrite bind_ret_l, Hs, bind_ret_l, He, bind_ret_l, Hd, bind_ret_l.
  cbn [String.eqb Ascii.eqb Bool.eqb orb andb].
  rewrite !bind_assoc. apply bind_ext; intros ges.
  rewrite bind_ret_l, !bind_assoc. apply bind_ext; intros anl.
  rewrite !bind_ret_l. reflexivity.
Qed.

(** A [collect_series] that returns had a range pandas could lay out. *)
Lemma collect_series_returns_range fs path var anl_ges s_time f_time station_ids obs_types
  (s e : datetime) t date_times series :
  anl_ges ∈ allowed_modes ->
  normalize s_time = ret s -> normalize f_time = ret e ->
  collect_series fs path var anl_ges s_time f_time station_ids obs_types
    = (t, Return (date_times, series)) ->
  date_range s e = ret (hourly_range s e).
Proof.
  intros Hmode Hs He H.
  destruct (date_range_outcome s e) as [Hd|Hd]; [exact Hd|].
  rewrite (collect_series_out_of_bounds _ _ _ _ _ _ _ _ s e Hmode Hs He Hd) in H.
  discriminate.
Qed.

Lemma series_of_paths_length fs path var anl_ges (date_times : list datetime)
  station_ids obs_types t series :
  get_omfs fs (get_gsi_fps path var anl_ges date_times) station_ids obs_types
    = (t, Return series) ->
  length series = length date_times.
Proof.
  intros H. rewrite (get_omfs_length _ _ _ _ _ _ H). apply get_gsi_fps_length.
Qed.

(** C1. For a valid mode and a time range with start not after end, the
    dict [collect_series] hands to the plotter holds exactly the labels the
    mode asks for ([ges], then [anl], in mode [both]), each with the
    extraction of its own paths, one float per hourly timestamp of the
    range, both ends included.  The series are produced whenever both ends
    are timestamps pandas holds at nanosecond resolution and the disk gives
    no unexpected read error. *)
Theorem collect_series_lengths fs path var anl_ges s_time f_time station_ids obs_types
  (s e : datetime) :
  anl_ges ∈ allowed_modes ->
  normalize s_time = ret s -> normalize f_time = ret e ->
  valid_datetime s -> valid_datetime e ->
  to_hours s <= to_hours e ->
  let n := Z.to_nat (to_hours e - to_hours s + 1) in
  (forall t date_times series,
     collect_series fs path var anl_ges s_time f_time station_ids obs_types
       = (t, Return (date_times, series)) ->
     date_times = hourly_range s e /\
     length date_times = n /\
     (forall u, valid_datetime u ->
        u ∈ date_times <-> to_hours s <= to_hours u <= to_hours e) /\
     series.*1 = mode_labels anl_ges /\
     (forall label data, (label, data) ∈ series ->
        length data = n /\
        exists tl,
          get_omfs fs (get_gsi_fps path var label date_times) station_ids obs_types
            = (tl, Return data)) /\
     (anl_ges = "both" -> exists ges anl, series = [("ges", ges); ("anl", anl)])) /\
  (in_ns_bounds s = true -> in_ns_bounds e = true -> no_unexpected_error fs ->
   exists t series,
     collect_series fs path var anl_ges s_time f_time station_ids obs_types
       = (t, Return (hourly_range s e, series)) /\ series <> []).
Proof.
  intros Hmode Hs He Vs Ve Hle n.
  assert (Hn : length (hourly_range s e) = n) by apply hourly_range_length.
  assert (Hin : forall u, valid_datetime u ->
                  u ∈ hourly_range s e <-> to_hours s <= to_hours u <= to_hours e).
  { intros u Vu. by apply elem_of_hourly_range. }
  split.
  - intros t date_times series H.
    pose proof (collect_series_returns_range _ _ _ _ _ _ _ _ s e _ _ _ Hmode Hs He H)
      as Hd.
    apply allowed_modes_cases in Hmode as [Hm | [Hm | Hm]]; subst anl_ges.
    + rewrite (collect_series_anl _ _ _ _ _ _ _ s e _ Hs He Hd) in H.
      destruct (get_omfs fs (get_gsi_fps path var "anl" (hourly_range s e))
                  station_ids obs_types) as [ta [anl|err]] eqn:E; [|discriminate].
      simpl in H. injection H as <- <- <-.
      split; [reflexivity|]. split; [exact Hn|]. split; [exact Hin|].
      split; [reflexivity|]. split; [|discriminate].
      intros label data Hl. apply list_elem_of_singleton in Hl. injection Hl as -> ->.
      split; [|by exists ta].
      rewrite (series_of_paths_length _ _ _ _ _ _ _ _ _ E). exact Hn.
    + rewrite (collect_series_ges _ _ _ _ _ _ _ s e _ Hs He Hd) in H.
      destruct (get_omfs fs (get_gsi_fps path var "ges" (hourly_range s e))
                  station_ids obs_types) as [tg [ges|err]] eqn:E; [|discriminate].
      simpl in H. injection H as <- <- <-.
      split; [reflexivity|]. split; [exact Hn|]. split; [exact Hin|].
      split; [reflexivity|]. split; [|discriminate].
      intros label data Hl. apply list_elem_of_singleton in Hl. injection Hl as -> ->.
      split; [|by exists tg].
      rewrite (series_of_paths_length _ _ _ _ _ _ _ _ _ E). exact Hn.
    + rewrite (collect_series_both _ _ _ _ _ _ _ s e _ Hs He Hd) in H.
      destruct (get_omfs fs (get_gsi_fps path var "ges" (hourly_range s e))
                  station_ids obs_types) as [tg [ges|err]] eqn:Eg; [|discriminate].
      rewrite bind_return in H.
      destruct (get_omfs fs (get_gsi_fps path var "anl" (hourly_range s e))
                  station_ids obs_types) as [ta [anl|err]] eqn:Ea; [|discriminate].
      simpl in H. injection H as <- <- <-.
      split; [reflexivity|]. split; [exact Hn|]. split; [exact Hin|].
      split; [reflexivity|]. split; [|intros _; by exists ges, anl].
      intros label data Hl.
      apply elem_of_cons in Hl as [Hl|Hl%list_elem_of_singleton];
        injection Hl as -> ->.
      * split; [|by exists tg].
        rewrite (series_of_paths_length _ _ _ _ _ _ _ _ _ Eg). exact Hn.
      * split; [|by exists ta].
        rewrite (series_of_paths_length _ _ _ _ _ _ _ _ _ Ea). exact Hn.
  - intros Bs Be Hfs.
    pose proof (date_range_in_bounds s e Bs Be) as Hd.
    apply allowed_modes_cases in Hmode as [Hm | [Hm | Hm]]; subst anl_ges.
    + rewrite (collect_series_anl _ _ _ _ _ _ _ s e _ Hs He Hd).
      destruct (get_omfs_returns fs (get_gsi_fps path var "anl" (hourly_range s e))
                  station_ids obs_types Hfs) as (ta & anl & ->).
      rewrite bind_return. simpl. eexists _, _. split; [reflexivity|discriminate].
    + rewrite (collect_series_ges _ _ _ _ _ _ _ s e _ Hs He Hd).
      destruct (get_omfs_returns fs (get_gsi_fps path var "ges" (hourly_range s e))
                  station_ids obs_types Hfs) as (tg & ges & ->).
      rewrite bind_return. simpl. eexists _, _. split; [reflexivity|discriminate].
    + rewrite (collect_series_both _ _ _ _ _ _ _ s e _ Hs He Hd).
      destruct (get_omfs_returns fs (get_gsi_fps path var "ges" (hourly_range s e))
                  station_ids obs_types Hfs) as (tg & ges & ->).
      destruct (get_omfs_returns fs (get_gsi_fps path var "anl" (hourly_range s e))
                  station_ids obs_types Hfs) as (ta & anl & Ea).
      rewrite bind_return, Ea. simpl. eexists _, _. split; [reflexivity|discriminate].
Qed.

Lemma disk_of_no_unexpected_error (files : list (string * outcome dataframe)) :
  Forall (fun f : string * outcome dataframe =>
            match f.2 with
            | Return _ => True
            | Raise e => is_FileNotFoundError e = true
            end) files ->
  no_unexpected_error (disk_of files).
Proof.
  intros Hall fp e. induction Hall as [|[name content] files Hf _ IH]; simpl.
  - intros H. injection H as <-. reflexivity.
  - destruct (String.eqb name fp); [|exact IH].
    intros ->. exact Hf.
Qed.

Lemma collect_series_lengths_witness :
  exists t ges anl,
    collect_series disk_hours_00_02 "/d" "t" "both"
      (TimeStr "2024010100") (TimeStr "2024010102") None None
    = (t, Return (hourly_range (DT 2024 1 1 0) (DT 2024 1 1 2),
                  [("ges", ges); ("anl", anl)])) /\
    length ges = 3%nat /\ length anl = 3%nat.
Proof.
  assert (Hmode : "both" ∈ allowed_modes) by (apply allowed_modes_cases; tauto).
  assert (Vs : valid_datetime (DT 2024 1 1 0)) by (unfold valid_datetime; simpl; lia).
  assert (Ve : valid_datetime (DT 2024 1 1 2)) by (unfold valid_datetime; simpl; lia).
  assert (Hle : to_hours (DT 2024 1 1 0) <= to_hours (DT 2024 1 1 2))
    by (vm_compute; discriminate).
  destruct (collect_series_lengths disk_hours_00_02 "/d" "t" "both"
              (TimeStr "2024010100") (TimeStr "2024010102") None None
              (DT 2024 1 1 0) (DT 2024 1 1 2) Hmode eq_refl eq_refl Vs Ve Hle)
    as [Hlen Hret].
  destruct (Hret eq_refl eq_refl) as (t & series & E & _).
  { apply disk_of_no_unexpected_error. repeat constructor. }
  destruct (Hlen t _ series E) as (_ & _ & _ & _ & Hdata & Hboth).
  destruct (Hboth eq_refl) as (ges & anl & ->).
  exists t, ges, anl. split; [exact E|]. split.
  - apply (Hdata "ges" ges). apply elem_of_cons. by left.
  - apply (Hdata "anl" anl). apply elem_of_cons. right. apply elem_of_cons. by left.
Defined.

(** C7. A mode outside [anl], [ges], [both] makes the entry point raise
    its [ValueError] at once: the trace is empty, so nothing was read,
    printed or drawn, and the time arguments were not looked at (the same
    error comes back whatever they are, parsable or not). *)
Theorem plot_time_series_invalid_mode fs path var anl_ges s_time f_time
  station_ids obs_types :
  anl_ges ∉ allowed_modes ->
  plot_time_series fs path var anl_ges s_time f_time station_ids obs_types =
    ([], Raise (invalid_mode_error anl_ges)) /\
  InvalidArgument (invalid_mode_error anl_ges) /\
  ~ ParseError (invalid_mode_error anl_ges).
Proof.
  intros H. unfold plot_time_series.
  rewrite collect_series_invalid_mode by assumption.
  split; [reflexivity|]. split; [exists anl_ges; reflexivity|].
  unfold ParseError, invalid_mode_error.
  rewrite !elem_of_cons, elem_of_nil.
  intros [E|[E|[E|[E|[]]]]]; discriminate E.
Qed.

Lemma plot_time_series_invalid_mode_witness :
  ("xyz" ∉ allowed_modes) /\
  plot_time_series disk_hours_00_02 "/d" "t" "xyz"
    (TimeStr "not a time") (TimeStr "2024010102") None None =
  ([], Raise (Exn ValueError
                "'xyz' is not an allowed option, must be 'anl', 'ges', or 'both' ")).
Proof.
  assert (H : "xyz" ∉ allowed_modes).
  { rewrite allowed_modes_cases. intros [E|[E|E]]; discriminate E. }
  split; [exact H|].
  exact (proj1 (plot_time_series_invalid_mode disk_hours_00_02 "/d" "t" "xyz"
                  (TimeStr "not a time") (TimeStr "2024010102") None None H)).
Defined.

(** ** The plotter *)

Lemma units_mapping_unknown (var : string) :
  var <> "t" -> var <> "ps" -> var <> "q" -> units_mapping !! var = None.
Proof.
  intros H1 H2 H3. unfold units_mapping.
  rewrite !lookup_insert_ne by congruence. apply lookup_singleton_ne. congruence.
Qed.

(** C8. For a variable that is none of the keys [t], [ps], [q] of the
    display lookup, the plot stage raises at the lookup, before anything is
    drawn: no axis label and no title are produced, blank or otherwise.  The
    same holds for the entry point once the series are extracted. *)
Theorem make_plot_unknown_variable (series : list (string * list float))
  (times : list datetime) (var : string) :
  var <> "t" -> var <> "ps" -> var <> "q" ->
  make_plot series times var =
    ([], Raise (Exn TypeError "'NoneType' object is not subscriptable")) /\
  UnknownVariable (Exn TypeError "'NoneType' object is not subscriptable") /\
  (forall fs path anl_ges s_time f_time station_ids obs_types t collected,
     collect_series fs path var anl_ges s_time f_time station_ids obs_types
       = (t, Return collected) ->
     plot_time_series fs path var anl_ges s_time f_time station_ids obs_types
       = (t, Raise (Exn TypeError "'NoneType' object is not subscriptable"))).
Proof.
  intros H1 H2 H3.
  assert (E : forall s ts, make_plot s ts var =
                ([], Raise (Exn TypeError "'NoneType' object is not subscriptable"))).
  { intros s ts. unfold make_plot.
    rewrite (units_mapping_unknown var H1 H2 H3). reflexivity. }
  split; [apply E|]. split; [reflexivity|].
  intros fs path anl_ges s_time f_time station_ids obs_types t [date_times ser] Hc.
  unfold plot_time_series. rewrite Hc, bind_return, E.
  simpl. rewrite app_nil_r. reflexivity.
Qed.

Lemma make_plot_unknown_variable_witness :
  make_plot [("ges", [3%float; nan; 3.5%float])]
    (hourly_range (DT 2024 1 1 0) (DT 2024 1 1 2)) "uv" =
  ([], Raise (Exn TypeError "'NoneType' object is not subscriptable")).
Proof.
  exact (proj1 (make_plot_unknown_variable [("ges", [3%float; nan; 3.5%float])]
                  (hourly_range (DT 2024 1 1 0) (DT 2024 1 1 2)) "uv"
                  ltac:(discriminate) ltac:(discriminate) ltac:(discriminate))).
Defined.

Lemma mask_of_nan (times : list datetime) (data : list float) :
  fst <$> List.filter snd (zip times (is_nan <$> data)) = no_data_times times data.
Proof.
  unfold no_data_times. revert data.
  induction times as [|u times IH]; intros [|x data]; try reflexivity.
  cbn [fmap list_fmap zip zip_with List.filter snd].
  destruct (is_nan x); cbn [fmap list_fmap fst]; [f_equal|]; apply IH.
Qed.

Lemma count_true_of_nan (times : list datetime) (data : list float) :
  length times = length data ->
  count_true (is_nan <$> data) = length (no_data_times times data).
Proof.
  unfold no_data_times, count_true. revert data.
  induction times as [|u times IH]; intros [|x data] H; try discriminate; [reflexivity|].
  cbn [fmap list_fmap zip zip_with List.filter snd id].
  injection H as H. unfold id at 1.
  destruct (is_nan x); cbn [fmap list_fmap length]; [f_equal|]; apply IH, H.
Qed.

(** One pass of the loop of [make_plot]: the colour is looked up, the line
    is refused when the series is not as long as the time axis, otherwise
    the two artists are drawn and the axis bound is taken, which fails on an
    empty series. *)
Lemma make_plot_loop_cons (times : list datetime) (key : string) (data : list float)
  (rest : list (string * list float)) (color_ind : nat) (max_val : float) :
  make_plot_loop times ((key, data) :: rest) color_ind max_val =
  match colors !! color_ind with
  | None => raise (Exn IndexError "list index out of range")
  | Some color =>
      if (length times =? length data)%nat
      then bind (series_artists times color (key, data),
                 result (np_nanmax (PrimFloat.abs <$> data)))
             (fun biggest =>
                make_plot_loop times rest ((color_ind + 1) mod length colors)%nat
                  (py_max (biggest * one_point_one)%float max_val))
      else raise plot_shape_error
  end.
Proof.
  cbn [make_plot_loop]. unfold getitem.
  destruct (colors !! color_ind) as [color|]; [|reflexivity].
  rewrite bind_ret_l. unfold plt_plot.
  destruct (length times =? length data)%nat eqn:E; [|reflexivity].
  apply Nat.eqb_eq in E.
  unfold mask_index. rewrite length_fmap, (proj2 (Nat.eqb_eq _ _) E).
  rewrite mask_of_nan, (count_true_of_nan times data E).
  unfold plt, emit, ret, series_artists. cbn [bind fst snd app].
  destruct data as [|x data]; [reflexivity|].
  cbn [fmap list_fmap np_nanmax result snd ret raise bind app].
  destruct (make_plot_loop times rest _ _) as [t' o]. reflexivity.
Qed.

Lemma make_plot_loop_trace (times : list datetime) (items : list (string * list float)) :
  forall (color_ind : nat) (max_val : float) t max_val',
  make_plot_loop times items color_ind max_val = (t, Return max_val') ->
  t = loop_artists times items color_ind.
Proof.
  induction items as [|[key data] rest IH]; intros c mv t mv' H.
  - injection H as <- _. reflexivity.
  - rewrite make_plot_loop_cons in H. cbn [loop_artists].
    destruct (colors !! c) as [color|]; [|discriminate].
    destruct (length times =? length data)%nat; [|discriminate].
    destruct (result (np_nanmax (PrimFloat.abs <$> data))) as [biggest|e]; [|discriminate].
    rewrite bind_return in H.
    destruct (make_plot_loop times rest ((c + 1) mod length colors)%nat
                (py_max (biggest * one_point_one)%float mv)) as [t2 [m2|e2]] eqn:E2;
      [|discriminate].
    injection H as <- _. cbn [default trace fst].
    rewrite (IH _ _ _ _ E2). reflexivity.
Qed.

Lemma legend_entries_app (t1 t2 : list event) :
  legend_entries (t1 ++ t2) = legend_entries t1 ++ legend_entries t2.
Proof. apply omap_app. Qed.

Lemma legend_series_artists (times : list datetime) (color : string)
  (kv : string * list float) :
  legend_entries (series_artists times color kv) = series_legend kv.
Proof.
  unfold series_artists, series_legend. destruct kv as [k data]. cbn [fst snd].
  destruct k as [|[[] [] [] [] [] [] [] []] k]; reflexivity.
Qed.

Lemma legend_loop_artists (times : list datetime) (items : list (string * list float)) :
  forall color_ind,
  legend_entries (loop_artists times items color_ind) = items ≫= series_legend.
Proof.
  induction items as [|kv rest IH]; intros c; [reflexivity|].
  cbn [loop_artists]. rewrite legend_entries_app, legend_series_artists, IH.
  reflexivity.
Qed.

(** The trace of a [make_plot] that returns. *)
Lemma make_plot_returns (series : list (string * list float)) (times : list datetime)
  (var : string) t :
  make_plot series times var = (t, Return tt) ->
  exists rest,
    t = EvPlt (Figure 10 5) :: loop_artists times series 0 ++
        EvPlt (Axhline 0%float "r" "--" "Zero") :: rest /\
    legend_entries rest = [].
Proof.
  unfold make_plot. intros H.
  destruct (units_mapping !! var) as [l|]; [|discriminate].
  unfold subscript_opt in H.
  destruct (l !! 1%nat) as [var_units|]; [|discriminate].
  rewrite bind_ret_l in H.
  destruct (l !! 0%nat) as [var_name|]; [|discriminate].
  rewrite bind_ret_l in H.
  unfold plt at 1, emit in H. rewrite bind_return in H.
  destruct (make_plot_loop times series 0 0%float) as [tl [mv|e]] eqn:El; [|discriminate].
  rewrite bind_return in H.
  unfold plt at 1, emit in H. rewrite bind_return in H.
  unfold plt_ylim in H.
  destruct (is_nan (- mv) || is_infinity (- mv) || is_nan mv || is_infinity mv);
    [discriminate|].
  cbn in H. injection H as <-.
  rewrite (make_plot_loop_trace _ _ _ _ _ _ El).
  eexists. split; [reflexivity|]. reflexivity.
Qed.

Lemma no_data_times_spec (times : list datetime) (data : list float) (u : datetime) :
  u ∈ no_data_times times data <->
  exists (i : nat) x, times !! i = Some u /\ data !! i = Some x /\ is_nan x = true.
Proof.
  unfold no_data_times. revert data.
  induction times as [|v times IH]; intros data.
  - simpl. split; [intros H; by apply elem_of_nil in H|].
    intros (i & x & H & _). discriminate.
  - destruct data as [|y data].
    + simpl. split; [intros H; by apply elem_of_nil in H|].
      intros (i & x & _ & H & _). discriminate.
    + cbn [zip zip_with List.filter snd].
      destruct (is_nan y) eqn:Ey; cbn [fmap list_fmap fst].
      * rewrite elem_of_cons, IH. split.
        -- intros [->|(i & x & H1 & H2 & H3)]; [by exists 0%nat, y|].
           by exists (S i), x.
        -- intros ([|i] & x & H1 & H2 & H3); [left; by injection H1|].
           right. by exists i, x.
      * rewrite IH. split.
        -- intros (i & x & H1 & H2 & H3). by exists (S i), x.
        -- intros ([|i] & x & H1 & H2 & H3).
           ++ injection H2 as <-. congruence.
           ++ by exists i, x.
Qed.

Lemma highlight_in_loop_artists (times : list datetime) (items : list (string * list float))
  (key : string) (data : list float) :
  (key, data) ∈ items ->
  forall color_ind,
  EvPlt (Scatter (no_data_times times data)
           (replicate (length (no_data_times times data)) 0%float) "red" "No Data")
  ∈ loop_artists times items color_ind.
Proof.
  induction items as [|kv rest IH]; intros Hin c; [by apply elem_of_nil in Hin|].
  cbn [loop_artists]. apply elem_of_app.
  apply elem_of_cons in Hin as [<-|Hin].
  - left. unfold series_artists. cbn [fst snd]. apply elem_of_cons. right.
    apply elem_of_cons. by left.
  - right. exact (IH Hin _).
Qed.

Lemma count_label_app (l : string) (e1 e2 : list string) :
  count_label l (e1 ++ e2) = (count_label l e1 + count_label l e2)%nat.
Proof. unfold count_label. rewrite List.filter_app, length_app. reflexivity. Qed.

Lemma count_no_data_series_legend (kv : string * list float) :
  kv.1 <> "No Data" -> count_label "No Data" (series_legend kv) = 1%nat.
Proof.
  intros Hk. unfold series_legend. rewrite count_label_app.
  assert (Hshown : forall shown : list string,
            shown = [] \/ shown = [kv.1] -> count_label "No Data" shown = 0%nat).
  { intros shown [->| ->]; [reflexivity|].
    unfold count_label. cbn [List.filter].
    destruct (String.eqb_spec "No Data" kv.1) as [E|_]; [congruence|reflexivity]. }
  rewrite Hshown; [reflexivity|].
  destruct (kv.1) as [|[[] [] [] [] [] [] [] []] k]; auto.
Qed.

Lemma count_no_data_legend (items : list (string * list float)) :
  Forall (fun kv : string * list float => kv.1 <> "No Data") items ->
  count_label "No Data" (items ≫= series_legend) = length items.
Proof.
  induction 1 as [|kv rest Hk _ IH]; [reflexivity|].
  change ((kv :: rest) ≫= series_legend) with (series_legend kv ++ rest ≫= series_legend).
  rewrite count_label_app, IH, (count_no_data_series_legend kv Hk). reflexivity.
Qed.

(** C9, as the specification states it, fails: with the two series of mode
    [both] the legend of the rendered chart holds two entries [No Data],
    not one. *)
Lemma single_no_data_entry_counterexample :
  ~ (forall fs path var anl_ges s_time f_time station_ids obs_types t,
       plot_time_series fs path var anl_ges s_time f_time station_ids obs_types
         = (t, Return tt) ->
       count_label "No Data" (legend_entries t) = 1%nat).
Proof.
  intros H.
  pose (run := plot_time_series disk_ges_anl "/d" "t" "both"
                 (TimeStr "2024010100") (TimeStr "2024010100") None None).
  assert (E : run = (trace run, Return tt)) by (vm_compute; reflexivity).
  specialize (H _ _ _ _ _ _ _ _ _ E).
  vm_compute in H. discriminate.
Qed.

(** C9, amended.  In a chart that is rendered, every series has its
    not-a-number hours marked by a red scatter at y = 0 labelled [No Data];
    each series brings its own such legend entry, so the legend holds as
    many [No Data] entries as series are plotted. *)
Theorem make_plot_no_data_highlights (series : list (string * list float))
  (times : list datetime) (var : string) (t : list event) :
  make_plot series times var = (t, Return tt) ->
  (forall key data, (key, data) ∈ series ->
     EvPlt (Scatter (no_data_times times data)
              (replicate (length (no_data_times times data)) 0%float) "red" "No Data") ∈ t /\
     forall u, u ∈ no_data_times times data <->
       exists (i : nat) x, times !! i = Some u /\ data !! i = Some x /\ is_nan x = true) /\
  legend_entries t = (series ≫= series_legend) ++ ["Zero"] /\
  (Forall (fun kv : string * list float => kv.1 <> "No Data") series ->
   count_label "No Data" (legend_entries t) = length series).
Proof.
  intros H. destruct (make_plot_returns _ _ _ _ H) as (rest & -> & Hrest).
  assert (Hleg : legend_entries
                   (EvPlt (Figure 10 5) :: loop_artists times series 0 ++
                    EvPlt (Axhline 0%float "r" "--" "Zero") :: rest)
                 = (series ≫= series_legend) ++ ["Zero"]).
  { change (EvPlt (Figure 10 5) :: loop_artists times series 0 ++
            EvPlt (Axhline 0%float "r" "--" "Zero") :: rest)
      with ([EvPlt (Figure 10 5)] ++ loop_artists times series 0 ++
            [EvPlt (Axhline 0%float "r" "--" "Zero")] ++ rest).
    rewrite !legend_entries_app, legend_loop_artists, Hrest. reflexivity. }
  split; [|split].
  - intros key data Hin. split; [|apply no_data_times_spec].
    apply elem_of_cons. right. apply elem_of_app. left.
    exact (highlight_in_loop_artists times series key data Hin 0%nat).
  - exact Hleg.
  - intros Hk. rewrite Hleg, count_label_app, (count_no_data_legend _ Hk).
    unfold count_label. simpl. lia.
Qed.

Lemma make_plot_no_data_highlights_witness :
  legend_entries
    (trace (make_plot [("ges", [3%float; nan]); ("anl", [nan; 3.5%float])]
              [DT 2024 1 1 0; DT 2024 1 1 1] "t"))
  = ["ges"; "No Data"; "anl"; "No Data"; "Zero"].
Proof.
  exact (proj1 (proj2 (make_plot_no_data_highlights
                         [("ges", [3%float; nan]); ("anl", [nan; 3.5%float])]
                         [DT 2024 1 1 0; DT 2024 1 1 1] "t" _ eq_refl))).
Defined.

Lemma make_plot_empty_series (key : string) (rest : list (string * list float))
  (var : string) :
  var = "t" \/ var = "ps" \/ var = "q" ->
  make_plot ((key, []) :: rest) [] var =
  ([EvPlt (Figure 10 5); EvPlt (Plot [] [] "o" "-" "b" key);
    EvPlt (Scatter [] [] "red" "No Data")],
   Raise nanmax_empty_error).
Proof. intros [->|[->| ->]]; reflexivity. Qed.

(** C10, as the specification states it, fails: with the start after the
    end and a variable outside the display lookup, the plot stage ends at
    the lookup of line 183 with the [TypeError] of subscripting [None];
    the reduction of [np.nanmax] over an empty series is never reached. *)
Lemma start_after_end_counterexample :
  ~ (forall fs path var anl_ges s_time f_time station_ids obs_types (s e : datetime),
       anl_ges ∈ allowed_modes ->
       normalize s_time = ret s -> normalize f_time = ret e ->
       to_hours e < to_hours s ->
       result (plot_time_series fs path var anl_ges s_time f_time station_ids obs_types)
         = Raise nanmax_empty_error).
Proof.
  intros H.
  assert (Hmode : "ges" ∈ allowed_modes) by (apply allowed_modes_cases; tauto).
  specialize (H disk_hours_00_02 "/d" "uv" "ges"
                (TimeStr "2024010102") (TimeStr "2024010100") None None
                (DT 2024 1 1 2) (DT 2024 1 1 0) Hmode eq_refl eq_refl eq_refl).
  vm_compute in H. discriminate H.
Qed.

(** C10, amended.  With a valid mode, a variable of the display lookup and
    time arguments that normalise to timestamps pandas holds at nanosecond
    resolution, a start after the end is not refused: the hourly range is
    empty, the extraction reads no file and gives every requested series
    empty, and the call fails in the plot stage, after the first series is
    drawn, where [np.nanmax] reduces over the empty series.  The error is
    neither the one of the mode check nor one of [strptime]. *)
Theorem plot_time_series_start_after_end fs path var anl_ges s_time f_time
  station_ids obs_types (s e : datetime) :
  anl_ges ∈ allowed_modes ->
  var = "t" \/ var = "ps" \/ var = "q" ->
  normalize s_time = ret s -> normalize f_time = ret e ->
  representable s -> representable e ->
  to_hours e < to_hours s ->
  date_range s e = ret [] /\
  (exists key rest,
     collect_series fs path var anl_ges s_time f_time station_ids obs_types
       = ([], Return ([], (key, []) :: rest)) /\
     key :: rest.*1 = mode_labels anl_ges /\
     Forall (fun kv : string * list float => kv.2 = []) rest /\
     plot_time_series fs path var anl_ges s_time f_time station_ids obs_types
       = ([EvPlt (Figure 10 5); EvPlt (Plot [] [] "o" "-" "b" key);
           EvPlt (Scatter [] [] "red" "No Data")],
          Raise nanmax_empty_error)) /\
  reads (trace (plot_time_series fs path var anl_ges s_time f_time station_ids obs_types))
    = [] /\
  ~ InvalidArgument nanmax_empty_error /\
  ~ ParseError nanmax_empty_error.
Proof.
  intros Hmode Hvar Hs He [_ Bs] [_ Be] Hlt.
  assert (Hd : date_range s e = ret []).
  { rewrite (date_range_in_bounds s e Bs Be). f_equal. f_equal.
    exact (hourly_range_empty s e Hlt). }
  assert (Hc : exists key rest,
             collect_series fs path var anl_ges s_time f_time station_ids obs_types
               = ([], Return ([], (key, []) :: rest)) /\
             key :: rest.*1 = mode_labels anl_ges /\
             Forall (fun kv : string * list float => kv.2 = []) rest).
  { apply allowed_modes_cases in Hmode as [Hm | [Hm | Hm]]; subst anl_ges.
    - rewrite (collect_series_anl _ _ _ _ _ _ _ s e [] Hs He Hd).
      exists "anl", []. split; [reflexivity|]. split; [reflexivity|constructor].
    - rewrite (collect_series_ges _ _ _ _ _ _ _ s e [] Hs He Hd).
      exists "ges", []. split; [reflexivity|]. split; [reflexivity|constructor].
    - rewrite (collect_series_both _ _ _ _ _ _ _ s e [] Hs He Hd).
      exists "ges", [("anl", [])]. split; [reflexivity|]. split; [reflexivity|].
      constructor; [reflexivity|constructor]. }
  destruct Hc as (key & rest & Hc & Hkeys & Hrest).
  assert (Hp : plot_time_series fs path var anl_ges s_time f_time station_ids obs_types
               = ([EvPlt (Figure 10 5); EvPlt (Plot [] [] "o" "-" "b" key);
                   EvPlt (Scatter [] [] "red" "No Data")],
                  Raise nanmax_empty_error)).
  { unfold plot_time_series. rewrite Hc, bind_return.
    rewrite (make_plot_empty_series key rest var Hvar). reflexivity. }
  split; [exact Hd|].
  split; [by exists key, rest|].
  split; [rewrite Hp; reflexivity|].
  split.
  - intros [m E]. unfold nanmax_empty_error, invalid_mode_error in E.
    simpl in E. discriminate E.
  - unfold ParseError. rewrite !elem_of_cons, elem_of_nil.
    intros [E|[E|[E|[E|[]]]]]; discriminate E.
Qed.

Lemma plot_time_series_start_after_end_witness :
  to_hours (DT 2024 1 1 0) < to_hours (DT 2024 1 1 2) /\
  plot_time_series disk_hours_00_02 "/d" "t" "ges"
    (TimeStr "2024010102") (TimeStr "2024010100") None None
  = ([EvPlt (Figure 10 5); EvPlt (Plot [] [] "o" "-" "b" "ges");
      EvPlt (Scatter [] [] "red" "No Data")],
     Raise nanmax_empty_error).
Proof.
  assert (Hlt : to_hours (DT 2024 1 1 0) < to_hours (DT 2024 1 1 2)) by reflexivity.
  split; [exact Hlt|].
  assert (Hmode : "ges" ∈ allowed_modes) by (apply allowed_modes_cases; tauto).
  assert (Rs : representable (DT 2024 1 1 2))
    by (split; [unfold valid_datetime; simpl; lia | reflexivity]).
  assert (Re : representable (DT 2024 1 1 0))
    by (split; [unfold valid_datetime; simpl; lia | reflexivity]).
  destruct (plot_time_series_start_after_end disk_hours_00_02 "/d" "t" "ges"
              (TimeStr "2024010102") (TimeStr "2024010100") None None
              (DT 2024 1 1 2) (DT 2024 1 1 0)
              Hmode (or_introl eq_refl) eq_refl eq_refl Rs Re Hlt)
    as (_ & (key & rest & Hc & _ & _ & Hp) & _).
  injection Hc as <- _. exact Hp.
Defined.

(** ** [strptime] gives valid timestamps *)

Lemma digitb_bounds (lo hi : nat) (c : ascii) :
  digitb lo hi c = true -> Z.of_nat lo <= digit_val c <= Z.of_nat hi.
Proof.
  unfold digitb, digit_val. rewrite andb_true_iff, !Nat.leb_le. lia.
Qed.

Lemma re_two_elem (p1 p2 : ascii -> bool) (s : string) (v : Z) (r : string) :
  (v, r) ∈ re_two p1 p2 s ->
  exists a b, p1 a = true /\ p2 b = true /\ v = 10 * digit_val a + digit_val b.
Proof.
  unfold re_two. destruct s as [|a [|b s]]; try (intros H; by apply elem_of_nil in H).
  destruct (p1 a) eqn:E1, (p2 b) eqn:E2; simpl;
    try (intros H; by apply elem_of_nil in H).
  intros H. apply list_elem_of_singleton in H. injection H as -> _. eauto.
Qed.

Lemma re_one_elem (p : ascii -> bool) (s : string) (v : Z) (r : string) :
  (v, r) ∈ re_one p s -> exists a, p a = true /\ v = digit_val a.
Proof.
  unfold re_one. destruct s as [|a s]; try (intros H; by apply elem_of_nil in H).
  destruct (p a) eqn:E; try (intros H; by apply elem_of_nil in H).
  intros H. apply list_elem_of_singleton in H. injection H as -> _. eauto.
Qed.

Lemma re_space_one_elem (p : ascii -> bool) (s : string) (v : Z) (r : string) :
  (v, r) ∈ re_space_one p s -> exists a, p a = true /\ v = digit_val a.
Proof.
  unfold re_space_one. destruct s as [|a [|b s]]; try (intros H; by apply elem_of_nil in H).
  destruct (Ascii.eqb a " "), (p b) eqn:E; simpl;
    try (intros H; by apply elem_of_nil in H).
  intros H. apply list_elem_of_singleton in H. injection H as -> _. eauto.
Qed.

Ltac group_bounds :=
  repeat match goal with
         | H : _ ∈ _ ++ _ |- _ => apply elem_of_app in H as [H|H]
         | H : _ ∈ [] |- _ => by apply elem_of_nil in H
         | H : _ ∈ re_two _ _ _ |- _ =>
             apply re_two_elem in H as (? & ? & ?%digitb_bounds & ?%digitb_bounds & ->)
         | H : _ ∈ re_one _ _ |- _ =>
             apply re_one_elem in H as (? & ?%digitb_bounds & ->)
         | H : _ ∈ re_space_one _ _ |- _ =>
             apply re_space_one_elem in H as (? & ?%digitb_bounds & ->)
         end; try lia.

Lemma re_m_elem (s : string) (v : Z) (r : string) : (v, r) ∈ re_m s -> 1 <= v <= 12.
Proof.
  unfold re_m, re_alt. cbn [fmap list_fmap concat]. intros H. group_bounds.
Qed.

Lemma re_d_elem (s : string) (v : Z) (r : string) : (v, r) ∈ re_d s -> 1 <= v <= 31.
Proof.
  unfold re_d, re_alt. cbn [fmap list_fmap concat]. intros H. group_bounds.
Qed.

Lemma re_H_elem (s : string) (v : Z) (r : string) : (v, r) ∈ re_H s -> 0 <= v <= 23.
Proof.
  unfold re_H, re_alt. cbn [fmap list_fmap concat]. intros H. group_bounds.
Qed.

Lemma re_Y_elem (s : string) (v : Z) (r : string) : (v, r) ∈ re_Y s -> 0 <= v <= 9999.
Proof.
  unfold re_Y.
  destruct s as [|a [|b [|c [|d s]]]]; try (intros H; by apply elem_of_nil in H).
  destruct (digitb 0 9 a) eqn:Ea, (digitb 0 9 b) eqn:Eb,
           (digitb 0 9 c) eqn:Ec, (digitb 0 9 d) eqn:Ed; simpl;
    try (intros H; by apply elem_of_nil in H).
  apply digitb_bounds in Ea, Eb, Ec, Ed.
  intros H. apply list_elem_of_singleton in H. injection H as -> _. lia.
Qed.

Lemma re_YmdH_elem (s : string) (t : datetime) (r : string) :
  (t, r) ∈ re_YmdH s ->
  0 <= year t <= 9999 /\ 1 <= month t <= 12 /\ 1 <= day t <= 31 /\ 0 <= hour t <= 23.
Proof.
  unfold re_YmdH. intros H.
  apply list_elem_of_bind in H as ([y r1] & H & Hy).
  apply list_elem_of_bind in H as ([m r2] & H & Hm).
  apply list_elem_of_bind in H as ([d r3] & H & Hd).
  apply list_elem_of_bind in H as ([h r4] & H & Hh).
  apply list_elem_of_singleton in H. injection H as -> _.
  apply re_Y_elem in Hy. apply re_m_elem in Hm.
  apply re_d_elem in Hd. apply re_H_elem in Hh.
  simpl. lia.
Qed.

(** A string that [strptime] accepts gives a timestamp a [datetime] can
    hold. *)
Lemma strptime_valid (s : string) (t : datetime) :
  strptime s = Return t -> valid_datetime t.
Proof.
  unfold strptime.
  destruct (re_YmdH s) as [|[u rest] l] eqn:E; [discriminate|].
  assert (Hu : (u, rest) ∈ re_YmdH s) by (rewrite E; apply elem_of_cons; by left).
  apply re_YmdH_elem in Hu.
  destruct (negb (String.eqb rest "")); [discriminate|].
  destruct (Z.ltb_spec (year u) 1); [discriminate|].
  destruct (Z.ltb_spec (days_in_month (year u) (month u)) (day u)); [discriminate|].
  intros Hr. injection Hr as <-. unfold valid_datetime. lia.
Qed.

Lemma normalize_valid (a : time_arg) (t : datetime) :
  normalize a = ret t ->
  match a with TimeStr _ => valid_datetime t | TimeObj d => d = t end.
Proof.
  destruct a as [s|d]; simpl.
  - intros H. injection H as H. exact (strptime_valid s t H).
  - intros H. by injection H.
Qed.

(** ** Worked examples *)

(** The scenario of spec 8: files for the hours 00 and 02 only, mode
    [ges], range 00 to 02. *)
Example end_to_end_scenario :
  collect_series disk_hours_00_02 "/d" "t" "ges"
    (TimeStr "2024010100") (TimeStr "2024010102") None None =
  ([EvRead (ges_path "00"); EvRead (ges_path "01"); EvRead (ges_path "02")],
   Return ([DT 2024 1 1 0; DT 2024 1 1 1; DT 2024 1 1 2],
           [("ges", [3%float; nan; 3.5%float])])).
Proof. reflexivity. Qed.

Example end_to_end_chart :
  plot_time_series disk_hours_00_02 "/d" "t" "ges"
    (TimeStr "2024010100") (TimeStr "2024010102") None None =
  ([EvRead (ges_path "00"); EvRead (ges_path "01"); EvRead (ges_path "02");
    EvPlt (Figure 10 5);
    EvPlt (Plot [DT 2024 1 1 0; DT 2024 1 1 1; DT 2024 1 1 2]
             [3%float; nan; 3.5%float] "o" "-" "b" "ges");
    EvPlt (Scatter [DT 2024 1 1 1] [0%float] "red" "No Data");
    EvPlt (Axhline 0%float "r" "--" "Zero");
    EvPlt (Ylim (- (3.5 * one_point_one))%float (3.5 * one_point_one)%float);
    EvPlt (Ylabel "Degrees Fahrenheit");
    EvPlt (Title "Temperature DA Time Series Plot");
    EvPlt (Grid true); EvPlt Legend; EvPlt (Xticks 45); EvPlt ShowChart],
   Return tt).
Proof. vm_compute. reflexivity. Qed.

(** The range runs over the end of a month and of a leap day. *)
Example hourly_range_leap_day :
  hourly_range (DT 2024 2 29 22) (DT 2024 3 1 1) =
  [DT 2024 2 29 22; DT 2024 2 29 23; DT 2024 3 1 0; DT 2024 3 1 1].
Proof. reflexivity. Qed.

(** [strptime] reads fields of one digit where two do not fit, and refuses
    what is left over, a day the month lacks, and text that is no time. *)
Example strptime_examples :
  strptime "2024010100" = Return (DT 2024 1 1 0) /\
  strptime "20241231" = Return (DT 2024 12 3 1) /\
  strptime "2024010100x" = Raise strptime_unconverted /\
  strptime "2023022900" = Raise strptime_bad_day /\
  strptime "not a time" = Raise strptime_no_match.
Proof. repeat split; reflexivity. Qed.

(** A time string that does not parse is a [ParseError] of the entry
    point when the mode is valid. *)
Example parse_error_after_mode_check :
  plot_time_series disk_hours_00_02 "/d" "t" "ges"
    (TimeStr "not a time") (TimeStr "2024010102") None None =
  ([], Raise strptime_no_match).
Proof. reflexivity. Qed.

(** A series that is missing everywhere makes the axis bound not-a-number,
    which [plt.ylim] refuses. *)
Example all_missing_series :
  result (plot_time_series disk_hours_00_02 "/d" "t" "anl"
            (TimeStr "2024010100") (TimeStr "2024010102") None None) =
  Raise ylim_error.
Proof. vm_compute. reflexivity. Qed.

(** The filters keep the rows that match both. *)
Example filter_df_example :
  filter_df [rows_135] (Some ["KDEN"; "KBOI"]) (Some [181]) = [Row "KBOI" 181 5%float].
Proof. reflexivity. Qed.

(** * Further properties of the module *)

(** ** The series extractor, position by position *)

Lemma mapM_lookup {A B} (f : A -> M B) (l : list A) :
  forall t ys, mapM f l = (t, Return ys) ->
  forall (i : nat) x, l !! i = Some x ->
  exists y, ys !! i = Some y /\ result (f x) = Return y.
Proof.
  induction l as [|a l IH]; intros t ys H i x Hi; [discriminate|].
  cbn [mapM] in H.
  destruct (f a) as [t1 [b|e]] eqn:Ea; [|discriminate].
  rewrite bind_return in H.
  destruct (mapM f l) as [t2 [bs|e]] eqn:El; [|discriminate].
  simpl in H. injection H as _ <-.
  destruct i as [|i].
  - injection Hi as <-. exists b. rewrite Ea. auto.
  - exact (IH _ _ eq_refl i x Hi).
Qed.

Lemma file_value_result fs station_ids obs_types (fp : string) (v : float) :
  result (file_value fs station_ids obs_types fp) = Return v <->
  match fs fp with
  | Return df => v = pd_mean (filtered_omf df station_ids obs_types)
  | Raise e => is_FileNotFoundError e = true /\ v = nan
  end.
Proof.
  unfold file_value. destruct (fs fp) as [df|e]; simpl.
  - split; [intros H; by injection H | by intros ->].
  - destruct (is_FileNotFoundError e); simpl.
    + split; [intros H; by injection H | by intros [_ ->]].
    + split; [discriminate | intros [H _]; discriminate].
Qed.

(** An extraction that returns gives one value per path, has read every
    path once and in order, and the value at a position depends on the file
    at that position alone: not-a-number when the file is missing, the mean
    of its filtered values when it is read. *)
Theorem get_omfs_pointwise fs (fps : list string) station_ids obs_types
  (t : list event) (series : list float) :
  get_omfs fs fps station_ids obs_types = (t, Return series) ->
  length series = length fps /\
  reads t = fps /\
  forall (i : nat) fp, fps !! i = Some fp ->
    exists v, series !! i = Some v /\
      match fs fp with
      | Return df => v = pd_mean (filtered_omf df station_ids obs_types)
      | Raise e => is_FileNotFoundError e = true /\ v = nan
      end.
Proof.
  intros H.
  split; [exact (get_omfs_length _ _ _ _ _ _ H)|].
  split; [exact (reads_get_omfs _ _ _ _ _ _ H)|].
  intros i fp Hi. rewrite get_omfs_mapM in H.
  destruct (mapM_lookup _ _ _ _ H i fp Hi) as (v & Hv & Hr).
  exists v. split; [exact Hv|]. by apply file_value_result.
Qed.

Lemma get_omfs_pointwise_witness :
  (exists v, [3%float; nan; 3.5%float] !! 0%nat = Some v /\
     match disk_hours_00_02 (ges_path "00") with
     | Return df => v = pd_mean (filtered_omf df None None)
     | Raise e => is_FileNotFoundError e = true /\ v = nan
     end) /\
  (exists v, [3%float; nan; 3.5%float] !! 1%nat = Some v /\
     match disk_hours_00_02 (ges_path "01") with
     | Return df => v = pd_mean (filtered_omf df None None)
     | Raise e => is_FileNotFoundError e = true /\ v = nan
     end).
Proof.
  pose proof (get_omfs_pointwise disk_hours_00_02
                [ges_path "00"; ges_path "01"; ges_path "02"] None None
                [EvRead (ges_path "00"); EvRead (ges_path "01");
                 EvRead (ges_path "02")]
                [3%float; nan; 3.5%float] eq_refl) as (_ & _ & H).
  split.
  - exact (H 0%nat (ges_path "00") eq_refl).
  - exact (H 1%nat (ges_path "01") eq_refl).
Defined.

Lemma file_value_returns fs station_ids obs_types (fp : string) :
  tolerated fs fp <->
  exists tv v, file_value fs station_ids obs_types fp = (tv, Return v).
Proof.
  unfold tolerated, file_value. destruct (fs fp) as [df|e].
  - split; [intros _; by eexists _, _ | intros _ e H; discriminate].
  - destruct (is_FileNotFoundError e) eqn:E.
    + split; [intros _; by eexists _, _ | intros _ e' H; congruence].
    + split; [intros H; specialize (H e eq_refl); congruence
             | intros (tv & v & H); discriminate H].
Qed.

(** The extraction returns a series exactly when no path of the list fails
    with anything but file-not-found. *)
Theorem get_omfs_returns_iff fs (fps : list string) station_ids obs_types :
  (exists t series, get_omfs fs fps station_ids obs_types = (t, Return series)) <->
  Forall (tolerated fs) fps.
Proof.
  rewrite get_omfs_mapM. induction fps as [|fp fps IH]; cbn [mapM].
  - split; [constructor | intros _; by eexists _, _].
  - rewrite Forall_cons, <- IH, (file_value_returns fs station_ids obs_types fp).
    split.
    + intros (t & series & H).
      destruct (file_value fs station_ids obs_types fp) as [tv [v|e]]; [|discriminate].
      rewrite bind_return in H.
      destruct (mapM (file_value fs station_ids obs_types) fps) as [t2 [ys|e]];
        [|discriminate].
      split; by eexists _, _.
    + intros [(tv & v & ->) (t2 & ys & ->)]. by eexists _, _.
Qed.

(** When the extraction raises, the exception is the one of the first path
    that fails with anything but file-not-found; everything before it was
    processed, the error was printed, and nothing after it was read. *)
Theorem get_omfs_raises_first fs (fps : list string) station_ids obs_types
  (t : list event) (e : exn) :
  get_omfs fs fps station_ids obs_types = (t, Raise e) ->
  exists pre fp post t1 xs,
    fps = pre ++ fp :: post /\
    get_omfs fs pre station_ids obs_types = (t1, Return xs) /\
    fs fp = Raise e /\ is_FileNotFoundError e = false /\
    t = t1 ++ [EvRead fp; EvPrint ("Unknown error occurred: " +:+ exn_msg e)] /\
    reads t = pre ++ [fp].
Proof.
  revert t. induction fps as [|fp fps IH]; intros t H; [discriminate|].
  change (fp :: fps) with ([] ++ fp :: fps) in H.
  rewrite get_omfs_split in H.
  change (get_omfs fs [] station_ids obs_types) with (@ret (list float) []) in H.
  rewrite bind_ret_l in H.
  destruct (file_value fs station_ids obs_types fp) as [tv [v|e']] eqn:Ev.
  - rewrite bind_return in H.
    destruct (get_omfs fs fps station_ids obs_types) as [t2 [ys|e2]] eqn:E2;
      [discriminate|].
    simpl in H. injection H as <- <-.
    destruct (IH t2 eq_refl) as (pre & fp' & post & t1 & xs & -> & Hpre & Hfp & Hnf & -> & Hr).
    exists (fp :: pre), fp', post, (tv ++ t1), (v :: xs).
    split; [reflexivity|]. split.
    + change (fp :: pre) with ([] ++ fp :: pre).
      rewrite (get_omfs_continue fs station_ids obs_types [] fp pre [] [] tv v eq_refl Ev).
      rewrite Hpre. reflexivity.
    + repeat split; auto; [by rewrite app_assoc|].
      pose proof (reads_file_value fs station_ids obs_types fp) as Rv.
      rewrite Ev in Rv. simpl in Rv.
      rewrite reads_app, Rv, Hr. reflexivity.
  - simpl in H. injection H as <- <-.
    unfold file_value in Ev. destruct (fs fp) as [df|e0] eqn:Efp; [discriminate|].
    destruct (is_FileNotFoundError e0) eqn:Enf; [discriminate|].
    injection Ev as <- <-.
    exists [], fp, fps, [], []. repeat split; auto.
Qed.

Lemma get_omfs_raises_first_witness :
  exists pre fp post t1 xs,
    ["a.nc4.gz"; "b.nc4.gz"; "c.nc4.gz"] = pre ++ fp :: post /\
    get_omfs disk_corrupt pre None None = (t1, Return xs) /\
    disk_corrupt fp = Raise (Exn (OtherException "OSError") "Not a gzipped file") /\
    is_FileNotFoundError (Exn (OtherException "OSError") "Not a gzipped file") = false /\
    [EvRead "a.nc4.gz"; EvRead "b.nc4.gz";
     EvPrint "Unknown error occurred: Not a gzipped file"] =
    t1 ++ [EvRead fp; EvPrint ("Unknown error occurred: " +:+
             exn_msg (Exn (OtherException "OSError") "Not a gzipped file"))] /\
    reads [EvRead "a.nc4.gz"; EvRead "b.nc4.gz";
           EvPrint "Unknown error occurred: Not a gzipped file"] = pre ++ [fp].
Proof.
  exact (get_omfs_raises_first disk_corrupt ["a.nc4.gz"; "b.nc4.gz"; "c.nc4.gz"]
           None None _ _ eq_refl).
Defined.

(** ** The orchestrator: what is read, and in which order *)

Lemma trace_bind {A B} (m : M A) (k : A -> M B) :
  trace (bind m k) =
  trace m ++ match result m with Return a => trace (k a) | Raise _ => [] end.
Proof.
  destruct m as [t [a|e]]; simpl; [destruct (k a); reflexivity|].
  by rewrite app_nil_r.
Qed.

Lemma trace_bind_Forall {A B} (P : event -> Prop) (m : M A) (k : A -> M B) :
  Forall P (trace m) -> (forall a, Forall P (trace (k a))) ->
  Forall P (trace (bind m k)).
Proof.
  intros Hm Hk. rewrite trace_bind. apply Forall_app. split; [exact Hm|].
  destruct (result m); [apply Hk | constructor].
Qed.

(** In a [collect_series] that returns, the files read are the paths of each
    label of the dict, label after label in dict order and hour after hour:
    all guess files before any analysis file, none twice, none other. *)
Theorem collect_series_reads fs path var anl_ges s_time f_time station_ids obs_types
  (s e : datetime) (t : list event) (date_times : list datetime)
  (series : list (string * list float)) :
  anl_ges ∈ allowed_modes ->
  normalize s_time = ret s -> normalize f_time = ret e ->
  collect_series fs path var anl_ges s_time f_time station_ids obs_types
    = (t, Return (date_times, series)) ->
  reads t = (series.*1) ≫= (fun label => get_gsi_fps path var label date_times) /\
  length (reads t) = (length series * length date_times)%nat.
Proof.
  intros Hmode Hs He H.
  pose proof (collect_series_returns_range _ _ _ _ _ _ _ _ s e _ _ _ Hmode Hs He H) as Hd.
  apply allowed_modes_cases in Hmode as [Hm | [Hm | Hm]]; subst anl_ges.
  - rewrite (collect_series_anl _ _ _ _ _ _ _ s e _ Hs He Hd) in H.
    destruct (get_omfs fs (get_gsi_fps path var "anl" (hourly_range s e))
                station_ids obs_types) as [ta [anl|err]] eqn:E; [|discriminate].
    simpl in H. injection H as <- <- <-.
    rewrite app_nil_r, (reads_get_omfs _ _ _ _ _ _ E).
    cbn [fmap list_fmap fst mbind list_bind]. rewrite app_nil_r.
    split; [reflexivity|]. rewrite get_gsi_fps_length. simpl. lia.
  - rewrite (collect_series_ges _ _ _ _ _ _ _ s e _ Hs He Hd) in H.
    destruct (get_omfs fs (get_gsi_fps path var "ges" (hourly_range s e))
                station_ids obs_types) as [tg [ges|err]] eqn:E; [|discriminate].
    simpl in H. injection H as <- <- <-.
    rewrite app_nil_r, (reads_get_omfs _ _ _ _ _ _ E).
    cbn [fmap list_fmap fst mbind list_bind]. rewrite app_nil_r.
    split; [reflexivity|]. rewrite get_gsi_fps_length. simpl. lia.
  - rewrite (collect_series_both _ _ _ _ _ _ _ s e _ Hs He Hd) in H.
    destruct (get_omfs fs (get_gsi_fps path var "ges" (hourly_range s e))
                station_ids obs_types) as [tg [ges|err]] eqn:Eg; [|discriminate].
    rewrite bind_return in H.
    destruct (get_omfs fs (get_gsi_fps path var "anl" (hourly_range s e))
                station_ids obs_types) as [ta [anl|err]] eqn:Ea; [|discriminate].
    simpl in H. injection H as <- <- <-.
    rewrite app_nil_r, reads_app, (reads_get_omfs _ _ _ _ _ _ Eg),
      (reads_get_omfs _ _ _ _ _ _ Ea).
    cbn [fmap list_fmap fst mbind list_bind]. rewrite app_nil_r.
    split; [reflexivity|]. rewrite length_app, !get_gsi_fps_length. simpl. lia.
Qed.

Lemma collect_series_reads_witness :
  reads [EvRead (ges_path "00"); EvRead (ges_path "01"); EvRead (ges_path "02")] =
  ([("ges", [3%float; nan; 3.5%float])].*1) ≫=
    (fun label => get_gsi_fps "/d" "t" label [DT 2024 1 1 0; DT 2024 1 1 1; DT 2024 1 1 2]).
Proof.
  assert (Hmode : "ges" ∈ allowed_modes) by (apply allowed_modes_cases; tauto).
  exact (proj1 (collect_series_reads disk_hours_00_02 "/d" "t" "ges"
                  (TimeStr "2024010100") (TimeStr "2024010102") None None
                  (DT 2024 1 1 0) (DT 2024 1 1 2) _ _ _
                  Hmode eq_refl eq_refl eq_refl)).
Defined.

Lemma file_value_no_plt fs station_ids obs_types (fp : string) :
  Forall (fun ev => is_plt_event ev = false)
    (trace (file_value fs station_ids obs_types fp)).
Proof.
  unfold file_value. destruct (fs fp) as [df|e0].
  - destruct (filtered_omf df station_ids obs_types); by repeat constructor.
  - destruct (is_FileNotFoundError e0); by repeat constructor.
Qed.

Lemma get_omfs_no_plt fs (fps : list string) station_ids obs_types :
  Forall (fun ev => is_plt_event ev = false)
    (trace (get_omfs fs fps station_ids obs_types)).
Proof.
  rewrite get_omfs_mapM. induction fps as [|fp fps IH]; [constructor|].
  cbn [mapM]. apply trace_bind_Forall; [apply file_value_no_plt|]. intros v.
  apply trace_bind_Forall; [exact IH|]. intros ys. constructor.
Qed.

(** Whatever its outcome, an extraction reads paths of its list only, from
    the first one on. *)
Lemma reads_get_omfs_prefix fs (fps : list string) station_ids obs_types :
  reads (trace (get_omfs fs fps station_ids obs_types)) `prefix_of` fps.
Proof.
  rewrite get_omfs_mapM. induction fps as [|fp fps IH]; [by exists []|].
  cbn [mapM]. rewrite trace_bind, reads_app, reads_file_value.
  apply (prefix_cons fp). cbn [app].
  destruct (result (file_value fs station_ids obs_types fp)); [|apply prefix_nil].
  rewrite trace_bind, reads_app.
  destruct (result (mapM (file_value fs station_ids obs_types) fps));
    simpl; rewrite app_nil_r; exact IH.
Qed.

(** In mode [both], over a range pandas lays out, an unexpected read error
    among the guess files ends the call with that error: no analysis file
    is read and nothing is drawn. *)
Theorem both_stops_at_ges_error fs path var s_time f_time station_ids obs_types
  (s e : datetime) (date_times : list datetime) (tg : list event) (err : exn) :
  normalize s_time = ret s -> normalize f_time = ret e ->
  date_range s e = ret date_times ->
  get_omfs fs (get_gsi_fps path var "ges" date_times) station_ids obs_types
    = (tg, Raise err) ->
  plot_time_series fs path var "both" s_time f_time station_ids obs_types
    = (tg, Raise err) /\
  (forall fp, fp ∈ reads tg -> fp ∈ get_gsi_fps path var "ges" date_times) /\
  Forall (fun ev => is_plt_event ev = false) tg.
Proof.
  intros Hs He Hd Hg. split; [|split].
  - unfold plot_time_series.
    rewrite (collect_series_both _ _ _ _ _ _ _ s e _ Hs He Hd), Hg. reflexivity.
  - pose proof (reads_get_omfs_prefix fs (get_gsi_fps path var "ges" date_times)
                  station_ids obs_types) as [k Hk].
    rewrite Hg in Hk. simpl in Hk. intros fp Hin. rewrite Hk.
    apply elem_of_app. by left.
  - pose proof (get_omfs_no_plt fs (get_gsi_fps path var "ges" date_times)
                  station_ids obs_types) as Hp.
    by rewrite Hg in Hp.
Qed.

Lemma both_stops_at_ges_error_witness :
  plot_time_series disk_corrupt_ges "/d" "t" "both"
    (TimeStr "2024010100") (TimeStr "2024010102") None None
  = ([EvRead (ges_path "00"); EvRead (ges_path "01");
      EvPrint "Unknown error occurred: Not a gzipped file"],
     Raise (Exn (OtherException "OSError") "Not a gzipped file")).
Proof.
  exact (proj1 (both_stops_at_ges_error disk_corrupt_ges "/d" "t"
                  (TimeStr "2024010100") (TimeStr "2024010102") None None
                  (DT 2024 1 1 0) (DT 2024 1 1 2) _ _ _
                  eq_refl eq_refl eq_refl eq_refl)).
Defined.

(** With a valid mode, a time string that [strptime] refuses ends the call
    with that error before any file is read or anything is drawn; the start
    is examined before the end. *)
Theorem plot_time_series_parse_error fs path var anl_ges station_ids obs_types
  (bad : string) (err : exn) :
  anl_ges ∈ allowed_modes ->
  strptime bad = Raise err ->
  (forall f_time,
     plot_time_series fs path var anl_ges (TimeStr bad) f_time station_ids obs_types
       = ([], Raise err)) /\
  (forall s_time s, normalize s_time = ret s ->
     plot_time_series fs path var anl_ges s_time (TimeStr bad) station_ids obs_types
       = ([], Raise err)) /\
  ParseError err.
Proof.
  intros Hmode Hbad.
  assert (Hdec : bool_decide (anl_ges ∉ allowed_modes) = false)
    by (apply bool_decide_eq_false_2; tauto).
  split; [|split].
  - intros f_time. unfold plot_time_series, collect_series.
    rewrite Hdec, bind_ret_l. cbn [normalize]. rewrite Hbad. reflexivity.
  - intros s_time s Hs. unfold plot_time_series, collect_series.
    rewrite Hdec, bind_ret_l, Hs, bind_ret_l. cbn [normalize]. rewrite Hbad. reflexivity.
  - unfold ParseError, strptime in *.
    rewrite !elem_of_cons.
    destruct (re_YmdH bad) as [|[u rest] l]; [injection Hbad as <-; tauto|].
    destruct (negb (String.eqb rest "")); [injection Hbad as <-; tauto|].
    destruct (year u <? 1); [injection Hbad as <-; tauto|].
    destruct (days_in_month (year u) (month u) <? day u); [injection Hbad as <-; tauto|].
    discriminate.
Qed.

Lemma plot_time_series_parse_error_witness :
  plot_time_series disk_hours_00_02 "/d" "t" "ges"
    (TimeStr "2023022900") (TimeStr "also bad") None None
  = ([], Raise strptime_bad_day).
Proof.
  assert (Hmode : "ges" ∈ allowed_modes) by (apply allowed_modes_cases; tauto).
  exact (proj1 (plot_time_series_parse_error disk_hours_00_02 "/d" "t" "ges" None None
                  "2023022900" strptime_bad_day Hmode eq_refl) (TimeStr "also bad")).
Defined.

(** A start or an end outside the timestamps pandas holds at nanosecond
    resolution, so before 1677-09-21 01h or after 2262-04-11 23h, is
    refused by [pd.date_range] once the mode and both time arguments are
    accepted: the call ends with [OutOfBoundsDatetime], no path is built,
    no file is read and nothing is drawn, whatever the order of the two
    ends. *)
Theorem plot_time_series_out_of_bounds fs path var anl_ges s_time f_time
  station_ids obs_types (s e : datetime) :
  anl_ges ∈ allowed_modes ->
  normalize s_time = ret s -> normalize f_time = ret e ->
  in_ns_bounds s = false \/ in_ns_bounds e = false ->
  plot_time_series fs path var anl_ges s_time f_time station_ids obs_types
    = ([], Raise out_of_bounds_error) /\
  ~ InvalidArgument out_of_bounds_error /\
  ~ ParseError out_of_bounds_error.
Proof.
  intros Hmode Hs He Hout.
  assert (Hd : date_range s e = raise out_of_bounds_error).
  { unfold date_range. destruct Hout as [-> | ->]; [reflexivity|].
    by rewrite andb_false_r. }
  split; [|split].
  - unfold plot_time_series.
    rewrite (collect_series_out_of_bounds _ _ _ _ _ _ _ _ s e Hmode Hs He Hd).
    reflexivity.
  - intros [m E]. unfold out_of_bounds_error, invalid_mode_error in E.
    discriminate E.
  - unfold ParseError. rewrite !elem_of_cons, elem_of_nil.
    intros [E|[E|[E|[E|[]]]]]; discriminate E.
Qed.

Lemma plot_time_series_out_of_bounds_witness :
  plot_time_series disk_hours_00_02 "/d" "t" "ges"
    (TimeStr "1600010100") (TimeStr "2024010100") None None
  = ([], Raise out_of_bounds_error).
Proof.
  assert (Hmode : "ges" ∈ allowed_modes) by (apply allowed_modes_cases; tauto).
  exact (proj1 (plot_time_series_out_of_bounds disk_hours_00_02 "/d" "t" "ges"
                  (TimeStr "1600010100") (TimeStr "2024010100") None None
                  (DT 1600 1 1 0) (DT 2024 1 1 0)
                  Hmode eq_refl eq_refl (or_introl eq_refl))).
Defined.

Lemma collect_series_no_plt fs path var anl_ges s_time f_time station_ids obs_types :
  Forall (fun ev => is_plt_event ev = false)
    (trace (collect_series fs path var anl_ges s_time f_time station_ids obs_types)).
Proof.
  unfold collect_series.
  apply trace_bind_Forall; [destruct (bool_decide _); constructor|]. intros _.
  apply trace_bind_Forall; [destruct s_time; simpl; constructor|]. intros s.
  apply trace_bind_Forall; [destruct f_time; simpl; constructor|]. intros e.
  apply trace_bind_Forall; [unfold date_range; destruct (_ && _); constructor|].
  intros date_times.
  apply trace_bind_Forall.
  { destruct (_ || _); [|constructor].
    apply trace_bind_Forall; [apply get_omfs_no_plt|]. intros; constructor. }
  intros series1. apply trace_bind_Forall.
  { destruct (_ || _); [|constructor].
    apply trace_bind_Forall; [apply get_omfs_no_plt|]. intros; constructor. }
  intros; constructor.
Qed.

Lemma make_plot_loop_only_plt (times : list datetime) (items : list (string * list float)) :
  forall color_ind max_val,
  Forall (fun ev => is_plt_event ev = true)
    (trace (make_plot_loop times items color_ind max_val)).
Proof.
  induction items as [|[key data] rest IH]; intros c mv; [constructor|].
  rewrite make_plot_loop_cons.
  destruct (colors !! c) as [color|]; [|constructor].
  destruct (length times =? length data)%nat; [|constructor].
  apply trace_bind_Forall; [by repeat constructor|]. intros b. apply IH.
Qed.

Lemma make_plot_only_plt (series : list (string * list float)) (times : list datetime)
  (var : string) :
  Forall (fun ev => is_plt_event ev = true) (trace (make_plot series times var)).
Proof.
  unfold make_plot.
  apply trace_bind_Forall.
  { unfold subscript_opt. destruct (units_mapping !! var) as [l|]; [|constructor].
    destruct (l !! 1%nat); constructor. }
  intros var_units. apply trace_bind_Forall.
  { unfold subscript_opt. destruct (units_mapping !! var) as [l|]; [|constructor].
    destruct (l !! 0%nat); constructor. }
  intros var_name.
  apply trace_bind_Forall; [by repeat constructor|]. intros _.
  apply trace_bind_Forall; [apply make_plot_loop_only_plt|]. intros max_val.
  apply trace_bind_Forall; [by repeat constructor|]. intros _.
  apply trace_bind_Forall.
  { unfold plt_ylim. destruct (_ || _); by repeat constructor. }
  intros _.
  repeat (apply trace_bind_Forall; [by repeat constructor|]; intros _).
  by repeat constructor.
Qed.

(** Whatever the outcome of a call, its trace falls in two phases: first
    the extraction, with reads and printed notices only, and then the chart,
    with calls to the plotting library only.  No file is read once drawing
    has begun. *)
Theorem plot_time_series_phases fs path var anl_ges s_time f_time station_ids obs_types :
  exists t_extract t_chart,
    trace (plot_time_series fs path var anl_ges s_time f_time station_ids obs_types)
      = t_extract ++ t_chart /\
    t_extract
      = trace (collect_series fs path var anl_ges s_time f_time station_ids obs_types) /\
    Forall (fun ev => is_plt_event ev = false) t_extract /\
    Forall (fun ev => is_plt_event ev = true) t_chart /\
    reads t_chart = [].
Proof.
  unfold plot_time_series. rewrite trace_bind.
  eexists _, _. split; [reflexivity|]. split; [reflexivity|].
  split; [apply collect_series_no_plt|].
  assert (Hplt : forall t, Forall (fun ev => is_plt_event ev = true) t -> reads t = []).
  { induction 1 as [|ev t Hev _ IH]; [reflexivity|].
    destruct ev; try discriminate. exact IH. }
  destruct (result (collect_series fs path var anl_ges s_time f_time station_ids obs_types))
    as [[date_times series]|err].
  - split; [apply make_plot_only_plt | apply Hplt, make_plot_only_plt].
  - split; [constructor | reflexivity].
Qed.

(** ** The plotter: when it renders, and its colours *)

Lemma result_bind {A B} (m : M A) (k : A -> M B) :
  result (bind m k) = match result m with Return a => result (k a) | Raise e => Raise e end.
Proof. destruct m as [t [a|e]]; simpl; [destruct (k a)|]; reflexivity. Qed.

Lemma units_mapping_known (var : string) (l : list string) :
  units_mapping !! var = Some l ->
  (var = "t" \/ var = "ps" \/ var = "q") /\ exists name unit, l = [name; unit].
Proof.
  intros H.
  destruct (decide (var = "t")) as [->|N1].
  { split; [tauto|]. vm_compute in H. injection H as <-. eauto. }
  destruct (decide (var = "ps")) as [->|N2].
  { split; [tauto|]. vm_compute in H. injection H as <-. eauto. }
  destruct (decide (var = "q")) as [->|N3].
  { split; [tauto|]. vm_compute in H. injection H as <-. eauto. }
  rewrite (units_mapping_unknown var N1 N2 N3) in H. discriminate.
Qed.

Lemma make_plot_loop_returns_aligned (times : list datetime)
  (items : list (string * list float)) :
  forall color_ind max_val t max_val',
  make_plot_loop times items color_ind max_val = (t, Return max_val') ->
  Forall (fun kv : string * list float => length kv.2 = length times /\ kv.2 <> []) items.
Proof.
  induction items as [|[key data] rest IH]; intros c mv t mv' H; [constructor|].
  rewrite make_plot_loop_cons in H.
  destruct (colors !! c) as [color|]; [|discriminate].
  destruct (length times =? length data)%nat eqn:El; [|discriminate].
  apply Nat.eqb_eq in El.
  destruct data as [|x data]; [discriminate|].
  cbn [fmap list_fmap np_nanmax ret result snd] in H. rewrite bind_return in H.
  destruct (make_plot_loop times rest _ _) as [t2 [m2|e2]] eqn:E2; [|discriminate].
  constructor; [split; [by rewrite El | discriminate]|].
  exact (IH _ _ _ _ E2).
Qed.

(** A chart is rendered only for one of the three known variables and only
    if every series has a value for each timestamp of the axis and is not
    empty; with an empty time axis no chart with a series is ever rendered. *)
Theorem make_plot_renders_only_if (series : list (string * list float))
  (times : list datetime) (var : string) (t : list event) :
  make_plot series times var = (t, Return tt) ->
  (var = "t" \/ var = "ps" \/ var = "q") /\
  Forall (fun kv : string * list float => length kv.2 = length times /\ kv.2 <> []) series /\
  (series <> [] -> times <> []).
Proof.
  intros H.
  assert (Hvar : var = "t" \/ var = "ps" \/ var = "q").
  { unfold make_plot in H.
    destruct (units_mapping !! var) as [l|] eqn:E; [|discriminate].
    exact (proj1 (units_mapping_known var l E)). }
  assert (Hall : Forall (fun kv : string * list float =>
                           length kv.2 = length times /\ kv.2 <> []) series).
  { unfold make_plot in H.
    destruct (units_mapping !! var) as [l|] eqn:E; [|discriminate].
    destruct (units_mapping_known var l E) as (_ & name & unit & ->).
    cbn [subscript_opt lookup list_lookup] in H. rewrite !bind_ret_l in H.
    unfold plt at 1, emit in H. rewrite bind_return in H.
    destruct (make_plot_loop times series 0 0%float) as [tl [mv|e]] eqn:El;
      [|discriminate].
    exact (make_plot_loop_returns_aligned _ _ _ _ _ _ El). }
  split; [exact Hvar|]. split; [exact Hall|].
  intros Hne ->. destruct Hall as [|[key data] rest [Hlen Hdata] _]; [by apply Hne|].
  simpl in Hlen, Hdata. destruct data; [by apply Hdata | discriminate].
Qed.

Lemma make_plot_renders_only_if_witness :
  ("t" = "t" \/ "t" = "ps" \/ "t" = "q") /\
  Forall (fun kv : string * list float =>
            length kv.2 = length [DT 2024 1 1 0; DT 2024 1 1 1] /\ kv.2 <> [])
    [("ges", [3%float; nan]); ("anl", [nan; 3.5%float])] /\
  ([("ges", [3%float; nan]); ("anl", [nan; 3.5%float])] <> [] ->
   [DT 2024 1 1 0; DT 2024 1 1 1] <> []).
Proof.
  exact (make_plot_renders_only_if
           [("ges", [3%float; nan]); ("anl", [nan; 3.5%float])]
           [DT 2024 1 1 0; DT 2024 1 1 1] "t" _ eq_refl).
Defined.

Lemma loop_artists_color (times : list datetime) (items : list (string * list float)) :
  forall (color_ind i : nat) kv,
  (color_ind < length colors)%nat ->
  items !! i = Some kv ->
  EvPlt (Plot times kv.2 "o" "-" (series_color (color_ind + i)) kv.1)
  ∈ loop_artists times items color_ind.
Proof.
  induction items as [|kv0 rest IH]; intros c i kv Hc Hi; [discriminate|].
  cbn [loop_artists]. apply elem_of_app. destruct i as [|i].
  - injection Hi as <-. left. unfold series_artists, series_color.
    rewrite Nat.add_0_r, Nat.mod_small by exact Hc.
    apply elem_of_cons. by left.
  - right.
    replace (series_color (c + S i))
      with (series_color ((c + 1) mod length colors + i)).
    + apply IH; [|exact Hi]. apply Nat.mod_upper_bound. discriminate.
    + unfold series_color. f_equal. f_equal.
      rewrite Nat.Div0.add_mod_idemp_l. f_equal. lia.
Qed.

(** In a rendered chart the series in position [i] of the dict is drawn as
    a line with round markers in the colour [i mod 6] of the palette
    b, g, c, m, y, k and labelled with its key: the palette repeats after
    six series. *)
Theorem make_plot_line_colors (series : list (string * list float))
  (times : list datetime) (var : string) (t : list event) :
  make_plot series times var = (t, Return tt) ->
  forall (i : nat) kv, series !! i = Some kv ->
    EvPlt (Plot times kv.2 "o" "-" (series_color i) kv.1) ∈ t /\
    series_color (i + 6) = series_color i.
Proof.
  intros H i kv Hi.
  destruct (make_plot_returns _ _ _ _ H) as (rest & -> & _).
  split.
  - apply elem_of_cons. right. apply elem_of_app. left.
    apply (loop_artists_color times series 0 i kv); [simpl; lia | exact Hi].
  - unfold series_color. f_equal. f_equal.
    change (length colors) with 6%nat.
    rewrite <- Nat.Div0.add_mod_idemp_r. change (6 mod 6)%nat with 0%nat.
    by rewrite Nat.add_0_r.
Qed.

Lemma make_plot_line_colors_witness :
  EvPlt (Plot [DT 2024 1 1 0; DT 2024 1 1 1] [nan; 3.5%float] "o" "-" "g" "anl")
  ∈ trace (make_plot [("ges", [3%float; nan]); ("anl", [nan; 3.5%float])]
             [DT 2024 1 1 0; DT 2024 1 1 1] "t").
Proof.
  exact (proj1 (make_plot_line_colors
                  [("ges", [3%float; nan]); ("anl", [nan; 3.5%float])]
                  [DT 2024 1 1 0; DT 2024 1 1 1] "t" _ eq_refl
                  1%nat ("anl", [nan; 3.5%float]) eq_refl)).
Defined.

(** ** Time strings and paths *)

Lemma digit_char_spec (n : Z) :
  digitb 0 9 (digit_char n) = true /\ digit_val (digit_char n) = n mod 10.
Proof.
  unfold digit_char.
  pose proof (Z.mod_pos_bound n 10 eq_refl) as B.
  assert (C : n mod 10 = 0 \/ n mod 10 = 1 \/ n mod 10 = 2 \/ n mod 10 = 3 \/
              n mod 10 = 4 \/ n mod 10 = 5 \/ n mod 10 = 6 \/ n mod 10 = 7 \/
              n mod 10 = 8 \/ n mod 10 = 9) by lia.
  destruct C as [C|[C|[C|[C|[C|[C|[C|[C|[C|C]]]]]]]]]; rewrite C; split; reflexivity.
Qed.

Lemma digit_char_inj (a b : Z) : digit_char a = digit_char b -> a mod 10 = b mod 10.
Proof.
  intros H. rewrite <- (proj2 (digit_char_spec a)), <- (proj2 (digit_char_spec b)).
  by rewrite H.
Qed.

Lemma fmap_list_bind {A B C} (f : B -> C) (g : A -> list B) (l : list A) :
  f <$> (l ≫= g) = l ≫= (fun x => f <$> g x).
Proof.
  induction l as [|x l IH]; [reflexivity|].
  rewrite !bind_cons, fmap_app, IH. reflexivity.
Qed.

Lemma re_YmdH_split (s : string) :
  re_YmdH s =
  '(y, r1) ← re_Y s;
  (fun p : Z * Z * Z * string => (DT y p.1.1.1 p.1.1.2 p.1.2, p.2)) <$> re_mdH r1.
Proof.
  unfold re_YmdH, re_mdH.
  apply list_bind_ext; [|reflexivity]. intros [y r1].
  rewrite fmap_list_bind. apply list_bind_ext; [|reflexivity]. intros [m r2].
  rewrite fmap_list_bind. apply list_bind_ext; [|reflexivity]. intros [d r3].
  rewrite fmap_list_bind. apply list_bind_ext; [|reflexivity]. intros [h r4].
  reflexivity.
Qed.

(** The month, day and hour groups read back two-digit fields. *)
Lemma re_mdH_two_digit_fields (m d h : Z) :
  1 <= m <= 12 -> 1 <= d <= 31 -> 0 <= h <= 23 ->
  exists l,
    re_mdH (String (digit_char (m / 10)) (String (digit_char m)
           (String (digit_char (d / 10)) (String (digit_char d)
           (String (digit_char (h / 10)) (String (digit_char h) "")))))) =
    ((m, d, h), "") :: l.
Proof.
  intros Hm Hd Hh.
  pose (chk := fun m d h : Z =>
    negb (1 <=? m) || negb (1 <=? d) ||
    match re_mdH (String (digit_char (m / 10)) (String (digit_char m)
                 (String (digit_char (d / 10)) (String (digit_char d)
                 (String (digit_char (h / 10)) (String (digit_char h) "")))))) with
    | ((m', d', h'), r) :: _ =>
        (m' =? m) && (d' =? d) && (h' =? h) && String.eqb r ""
    | [] => false
    end).
  assert (Hall : forallb (fun m => forallb (fun d => forallb (chk m d)
                   (Z.of_nat <$> seq 0 (Z.to_nat 24)))
                   (Z.of_nat <$> seq 0 (Z.to_nat 32)))
                   (Z.of_nat <$> seq 0 (Z.to_nat 13)) = true)
    by (vm_compute; reflexivity).
  pose proof (forallb_below _ 13 Hall m ltac:(lia)) as H1. cbv beta in H1.
  pose proof (forallb_below _ 32 H1 d ltac:(lia)) as H2. cbv beta in H2.
  pose proof (forallb_below _ 24 H2 h ltac:(lia)) as H3.
  unfold chk in H3.
  destruct (Z.leb_spec 1 m); [|lia]. destruct (Z.leb_spec 1 d); [|lia].
  cbn [negb orb] in H3.
  destruct (re_mdH _) as [|[[[m' d'] h'] r] l]; [discriminate|].
  rewrite !andb_true_iff, !Z.eqb_eq, String.eqb_eq in H3.
  destruct H3 as [[[-> ->] ->] ->]. by exists l.
Qed.

Lemma four_digits_value (y : Z) :
  0 <= y <= 9999 ->
  1000 * ((y / 1000) mod 10) + 100 * ((y / 100) mod 10) + 10 * ((y / 10) mod 10)
    + y mod 10 = y.
Proof. intros H. Z.div_mod_to_equations. lia. Qed.

(** The [%Y%m%d%H] text of a timestamp from the year 1000 on is read back
    by [strptime] as that timestamp. *)
Lemma strptime_strftime (t : datetime) :
  four_digit_year t -> strptime (strftime_YmdH t) = Return t.
Proof.
  intros V. rewrite (strftime_valid t V). destruct V as [(Hy & Hm & Hd & Hh) _].
  pose proof (days_in_month_bounds (year t) (month t)) as Hdim.
  destruct t as [y m d h]; simpl in *.
  destruct (re_mdH_two_digit_fields m d h) as [l Hl]; [lia..|].
  unfold strptime. rewrite re_YmdH_split.
  unfold date_YYYYMMDD, hour_HH. cbv [year month day hour String.append re_Y].
  rewrite !(proj1 (digit_char_spec _)), !(proj2 (digit_char_spec _)).
  cbn [andb]. rewrite (four_digits_value y) by lia.
  rewrite bind_singleton, Hl. cbn [fmap list_fmap fst snd year month day].
  cbn [String.eqb negb].
  destruct (Z.ltb_spec y 1); [lia|].
  destruct (Z.ltb_spec (days_in_month y m) d); [lia|]. reflexivity.
Qed.

Lemma two_digits_inj (a b : Z) :
  0 <= a <= 99 -> 0 <= b <= 99 ->
  (a / 10) mod 10 = (b / 10) mod 10 -> a mod 10 = b mod 10 -> a = b.
Proof. intros Ha Hb H1 H2. Z.div_mod_to_equations. lia. Qed.

Lemma four_digits_inj (a b : Z) :
  0 <= a <= 9999 -> 0 <= b <= 9999 ->
  (a / 1000) mod 10 = (b / 1000) mod 10 -> (a / 100) mod 10 = (b / 100) mod 10 ->
  (a / 10) mod 10 = (b / 10) mod 10 -> a mod 10 = b mod 10 -> a = b.
Proof.
  intros Ha Hb H1 H2 H3 H4.
  rewrite <- (four_digits_value a Ha), <- (four_digits_value b Hb). lia.
Qed.

(** Two timestamps from the year 1000 on with the same path are the same
    timestamp. *)
Lemma path_template_inj (root var anl_ges : string) (t1 t2 : datetime) :
  valid_datetime t1 -> valid_datetime t2 ->
  path_template root var anl_ges t1 = path_template root var anl_ges t2 -> t1 = t2.
Proof.
  intros (Hy1 & Hm1 & Hd1 & Hh1) (Hy2 & Hm2 & Hd2 & Hh2) H.
  pose proof (days_in_month_bounds (year t1) (month t1)).
  pose proof (days_in_month_bounds (year t2) (month t2)).
  unfold path_template in H. apply String.app_inj in H.
  destruct t1 as [y1 m1 d1 h1], t2 as [y2 m2 d2 h2].
  cbv [String.append date_YYYYMMDD hour_HH year month day hour] in H.
  injection H as Ea Eb Ec Ed Ee Ef Eg Eh Ei Ej _.
  apply digit_char_inj in Ea, Eb, Ec, Ed, Ee, Ef, Eg, Eh, Ei, Ej.
  simpl in *.
  f_equal; [apply four_digits_inj | apply two_digits_inj ..]; auto; lia.
Qed.

Lemma hourly_range_NoDup (s e : datetime) :
  valid_datetime s -> valid_datetime e -> NoDup (hourly_range s e).
Proof.
  intros Vs Ve. destruct (hourly_range_spec s e Vs Ve) as [_ Hi].
  apply NoDup_alt. intros i j u Hu1 Hu2.
  pose proof (Hi i u Hu1). pose proof (Hi j u Hu2). lia.
Qed.

(** The timestamps pandas holds at nanosecond resolution lie in the years
    1677 to 2262. *)
Lemma in_ns_bounds_year (t : datetime) :
  valid_datetime t -> in_ns_bounds t = true -> 1677 <= year t <= 2262.
Proof.
  intros V B. pose proof (toordinal_bounds t V) as Bo.
  destruct V as (Hy & Hm & Hd & Hh).
  unfold in_ns_bounds in B. apply andb_true_iff in B as [Bl Bu].
  apply Z.leb_le in Bl, Bu.
  let v := eval vm_compute in (to_hours Timestamp_min_hour) in
    change (to_hours Timestamp_min_hour) with v in Bl.
  let v := eval vm_compute in (to_hours Timestamp_max_hour) in
    change (to_hours Timestamp_max_hour) with v in Bu.
  unfold to_hours in Bl, Bu. split.
  - destruct (Z.le_gt_cases 1677 (year t)) as [|L]; [assumption|].
    pose proof (days_before_year_mono (year t + 1) 1677 ltac:(lia)) as M.
    let v := eval vm_compute in (days_before_year 1677) in
    change (days_before_year 1677) with v in M.
    lia.
  - destruct (Z.le_gt_cases (year t) 2262) as [|L]; [assumption|].
    pose proof (days_before_year_mono 2263 (year t) ltac:(lia)) as M.
    let v := eval vm_compute in (days_before_year 2263) in
    change (days_before_year 2263) with v in M.
    lia.
Qed.

Lemma representable_four_digit_year (t : datetime) :
  representable t -> four_digit_year t.
Proof.
  intros [V B]. split; [exact V|]. pose proof (in_ns_bounds_year t V B). lia.
Qed.

(** Every timestamp of a range between two representable ends is
    representable, so its year is printed with four digits. *)
Lemma hourly_range_representable (s e : datetime) :
  representable s -> representable e -> Forall representable (hourly_range s e).
Proof.
  intros [Vs Bs] [Ve Be].
  destruct (hourly_range_spec s e Vs Ve) as [Hv Hi].
  pose proof (hourly_range_length s e) as Hl.
  apply Forall_lookup_2. intros i u Hu.
  pose proof (lookup_lt_Some _ _ _ Hu) as Hlt.
  pose proof (Hi i u Hu) as Hh.
  split; [exact (proj1 (Forall_lookup _ _) Hv i u Hu)|].
  unfold in_ns_bounds in *.
  apply andb_true_iff in Bs as [Bs1 Bs2]. apply andb_true_iff in Be as [Be1 Be2].
  apply Z.leb_le in Bs1, Bs2, Be1, Be2.
  apply andb_true_iff. split; apply Z.leb_le; lia.
Qed.

(** On timestamps from the year 1000 on the path builder is injective:
    distinct hours get distinct paths.  The paths of an hourly range that
    pandas lays out are therefore pairwise distinct, and an extraction over
    them reads no file twice. *)
Theorem get_gsi_fps_NoDup (root var anl_ges : string) (date_times : list datetime) :
  Forall four_digit_year date_times -> NoDup date_times ->
  NoDup (get_gsi_fps root var anl_ges date_times) /\
  (forall s e, representable s -> representable e ->
     NoDup (get_gsi_fps root var anl_ges (hourly_range s e)) /\
     forall fs station_ids obs_types t series,
       get_omfs fs (get_gsi_fps root var anl_ges (hourly_range s e)) station_ids obs_types
         = (t, Return series) ->
       NoDup (reads t)).
Proof.
  assert (Hinj : forall ts, Forall four_digit_year ts -> NoDup ts ->
                   NoDup (get_gsi_fps root var anl_ges ts)).
  { intros ts Hv Hnd. rewrite get_gsi_fps_template by assumption.
    apply NoDup_fmap_2_strong; [|exact Hnd].
    rewrite Forall_forall in Hv.
    intros t1 t2 H1 H2. apply path_template_inj; by apply Hv. }
  intros Hv Hnd. split; [by apply Hinj|].
  intros s e Rs Re.
  assert (Hp : NoDup (get_gsi_fps root var anl_ges (hourly_range s e))).
  { apply Hinj.
    - eapply Forall_impl; [exact (hourly_range_representable s e Rs Re)|].
      exact representable_four_digit_year.
    - apply hourly_range_NoDup; [apply Rs | apply Re]. }
  split; [exact Hp|].
  intros fs station_ids obs_types t series H.
  by rewrite (reads_get_omfs _ _ _ _ _ _ H).
Qed.

Lemma get_gsi_fps_NoDup_witness :
  NoDup (get_gsi_fps "/d" "t" "ges" [DT 2024 1 1 23; DT 2024 1 2 0]).
Proof.
  refine (proj1 (get_gsi_fps_NoDup "/d" "t" "ges" [DT 2024 1 1 23; DT 2024 1 2 0] _ _)).
  - repeat apply Forall_cons_2; try apply Forall_nil_2;
      unfold four_digit_year, valid_datetime; simpl; lia.
  - apply NoDup_cons. split; [|apply NoDup_singleton].
    intros H%list_elem_of_singleton. discriminate H.
Defined.

Lemma digits_only_app (s1 s2 : string) :
  digits_only (s1 +:+ s2) = digits_only s1 && digits_only s2.
Proof.
  induction s1 as [|c s1 IH]; [reflexivity|].
  change (String c s1 +:+ s2) with (String c (s1 +:+ s2)).
  cbn [digits_only]. by rewrite IH, andb_assoc.
Qed.

Lemma digits_only_substring (s : string) :
  forall n m, digits_only s = true -> digits_only (substring n m s) = true.
Proof.
  induction s as [|c s IH]; intros n m H.
  - destruct n, m; reflexivity.
  - cbn [digits_only] in H. apply andb_true_iff in H as [Hc Hs].
    destruct n as [|n]; [destruct m as [|m]; [reflexivity|]|]; cbn [substring].
    + cbn [digits_only]. by rewrite Hc, IH.
    + by apply IH.
Qed.

Lemma decimal_digits_only (n : Z) :
  0 <= n <= 9999 -> digits_only (decimal n) = true.
Proof.
  intros H.
  apply (forallb_below (fun n => digits_only (decimal n)) 10000);
    [vm_compute; reflexivity | lia].
Qed.

Lemma zeros_digits_only (k : nat) : digits_only (zeros k) = true.
Proof. induction k as [|k IH]; [reflexivity | exact IH]. Qed.

(** What [strftime] prints for a valid timestamp is a string of digits,
    whatever the number of digits of the year. *)
Lemma strftime_digits_only (t : datetime) :
  valid_datetime t -> digits_only (strftime_YmdH t) = true.
Proof.
  intros (Hy & Hm & Hd & Hh).
  pose proof (days_in_month_bounds (year t) (month t)).
  unfold strftime_YmdH, zfill.
  rewrite !digits_only_app, !zeros_digits_only, !decimal_digits_only by lia.
  reflexivity.
Qed.

(** A separator that is no digit ends the run of digits before it at the
    same place in two equal strings. *)
Lemma digits_then_separator (c : ascii) (s1 : string) :
  digitb 0 9 c = false ->
  forall s2 r1 r2,
  digits_only s1 = true -> digits_only s2 = true ->
  s1 +:+ String c r1 = s2 +:+ String c r2 -> s1 = s2 /\ r1 = r2.
Proof.
  intros Hc. induction s1 as [|a s1 IH]; intros [|b s2] r1 r2 H1 H2 E.
  - change (String c r1 = String c r2) in E. split; [reflexivity | congruence].
  - change (String c r1 = String b (s2 +:+ String c r2)) in E.
    cbn [digits_only] in H2. apply andb_true_iff in H2 as [Hb _].
    congruence.
  - change (String a (s1 +:+ String c r1) = String c r2) in E.
    cbn [digits_only] in H1. apply andb_true_iff in H1 as [Ha _].
    congruence.
  - change (String a (s1 +:+ String c r1) = String b (s2 +:+ String c r2)) in E.
    cbn [digits_only] in H1, H2.
    apply andb_true_iff in H1 as [_ H1]. apply andb_true_iff in H2 as [_ H2].
    assert (Eab : a = b) by congruence.
    assert (Er : s1 +:+ String c r1 = s2 +:+ String c r2) by congruence.
    destruct (IH s2 r1 r2 H1 H2 Er) as [-> ->]. by rewrite Eab.
Qed.

Lemma append_cons (c : ascii) (s r : string) : String c s +:+ r = String c (s +:+ r).
Proof. reflexivity. Qed.

Lemma append_nil (r : string) : "" +:+ r = r.
Proof. reflexivity. Qed.

Lemma append_inj_l (s a b : string) : s +:+ a = s +:+ b -> a = b.
Proof.
  induction s as [|c s IH]; [by rewrite !append_nil|].
  rewrite !append_cons. intros H. apply IH. congruence.
Qed.

Lemma string_tail_inj (c : ascii) (s1 s2 : string) : String c s1 = String c s2 -> s1 = s2.
Proof. congruence. Qed.

(** The path the builder gives a timestamp, for any timestamp. *)
Lemma get_gsi_fps_fmap (path var anl_ges : string) (ts : list datetime) :
  get_gsi_fps path var anl_ges ts =
  (fun t =>
     path +:+ "/RTMA_CONUS." +:+ slice_to 8 (strftime_YmdH t) +:+ "/" +:+
     slice_last 2 (strftime_YmdH t) +:+
     "/diag_conv_" +:+ var +:+ "_" +:+ anl_ges +:+ "." +:+
     slice_to 8 (strftime_YmdH t) +:+ slice_last 2 (strftime_YmdH t) +:+ ".nc4.gz")
  <$> ts.
Proof.
  induction ts as [|t ts IH]; [reflexivity|].
  rewrite get_gsi_fps_cons, IH. reflexivity.
Qed.

Lemma ges_anl_paths_differ (root var : string) (t1 t2 : datetime) :
  valid_datetime t1 -> valid_datetime t2 ->
  root +:+ "/RTMA_CONUS." +:+ slice_to 8 (strftime_YmdH t1) +:+ "/" +:+
    slice_last 2 (strftime_YmdH t1) +:+
    "/diag_conv_" +:+ var +:+ "_" +:+ "ges" +:+ "." +:+
    slice_to 8 (strftime_YmdH t1) +:+ slice_last 2 (strftime_YmdH t1) +:+ ".nc4.gz"
  <>
  root +:+ "/RTMA_CONUS." +:+ slice_to 8 (strftime_YmdH t2) +:+ "/" +:+
    slice_last 2 (strftime_YmdH t2) +:+
    "/diag_conv_" +:+ var +:+ "_" +:+ "anl" +:+ "." +:+
    slice_to 8 (strftime_YmdH t2) +:+ slice_last 2 (strftime_YmdH t2) +:+ ".nc4.gz".
Proof.
  intros V1 V2 H.
  pose proof (digits_only_substring _ 0 8 (strftime_digits_only t1 V1)) as D1.
  pose proof (digits_only_substring _ 0 8 (strftime_digits_only t2 V2)) as D2.
  pose proof (digits_only_substring _ (String.length (strftime_YmdH t1) - 2) 2
                (strftime_digits_only t1 V1)) as H1.
  pose proof (digits_only_substring _ (String.length (strftime_YmdH t2) - 2) 2
                (strftime_digits_only t2 V2)) as H2.
  fold (slice_to 8 (strftime_YmdH t1)) in D1. fold (slice_to 8 (strftime_YmdH t2)) in D2.
  fold (slice_last 2 (strftime_YmdH t1)) in H1.
  fold (slice_last 2 (strftime_YmdH t2)) in H2.
  apply append_inj_l in H.
  rewrite !append_cons, !append_nil in H.
  do 12 (apply string_tail_inj in H).
  apply (digits_then_separator "/" _ eq_refl _ _ _ D1 D2) in H as [_ H].
  apply (digits_then_separator "/" _ eq_refl _ _ _ H1 H2) in H as [_ H].
  do 10 (apply string_tail_inj in H).
  apply append_inj_l in H. discriminate H.
Qed.

(** A guess path is never an analysis path: in mode [both] the two
    extractions read disjoint sets of files. *)
Theorem ges_anl_paths_disjoint (root var : string) (ts1 ts2 : list datetime) :
  Forall valid_datetime ts1 -> Forall valid_datetime ts2 ->
  forall fp, fp ∈ get_gsi_fps root var "ges" ts1 -> fp ∉ get_gsi_fps root var "anl" ts2.
Proof.
  intros V1 V2 fp. rewrite !get_gsi_fps_fmap.
  intros (t1 & -> & I1)%list_elem_of_fmap (t2 & H & I2)%list_elem_of_fmap.
  rewrite Forall_forall in V1, V2.
  exact (ges_anl_paths_differ root var t1 t2 (V1 t1 I1) (V2 t2 I2) H).
Qed.

Lemma ges_anl_paths_disjoint_witness :
  "/d/RTMA_CONUS.20240101/00/diag_conv_t_ges.2024010100.nc4.gz"
  ∉ get_gsi_fps "/d" "t" "anl" [DT 2024 1 1 0].
Proof.
  assert (V : Forall valid_datetime [DT 2024 1 1 0]).
  { apply Forall_cons_2; [unfold valid_datetime; simpl; lia | apply Forall_nil_2]. }
  refine (ges_anl_paths_disjoint "/d" "t" [DT 2024 1 1 0] [DT 2024 1 1 0] V V _ _).
  apply elem_of_cons. by left.
Defined.

(** ** Series that are missing everywhere *)

Lemma is_nan_eq (x : float) : is_nan x = true -> x = nan.
Proof.
  intros H. rewrite <- (SF2Prim_Prim2SF x). unfold Prim2SF. rewrite H. reflexivity.
Qed.

Lemma ltb_nan_l (y : float) : (nan <? y)%float = false.
Proof. rewrite ltb_spec. reflexivity. Qed.

Lemma ltb_nan_r (x : float) : (x <? nan)%float = false.
Proof.
  rewrite ltb_spec. change (Prim2SF nan) with S754_nan.
  unfold SFltb, SFcompare. destruct (Prim2SF x); reflexivity.
Qed.

Lemma py_max_nan_l (b : float) : py_max nan b = nan.
Proof. unfold py_max. by rewrite ltb_nan_l. Qed.

Lemma py_max_nan_r (a : float) : py_max a nan = a.
Proof. unfold py_max. by rewrite ltb_nan_r. Qed.

Lemma all_nan_replicate (data : list float) :
  Forall (fun x => is_nan x = true) data -> data = replicate (length data) nan.
Proof.
  induction 1 as [|x l Hx _ IH]; [reflexivity|].
  simpl. rewrite (is_nan_eq x Hx). f_equal. exact IH.
Qed.

Lemma nanmax_all_nan (n : nat) :
  fold_left fmax (PrimFloat.abs <$> replicate n nan) nan = nan.
Proof. induction n as [|n IH]; [reflexivity|]. simpl. exact IH. Qed.

(** One pass of the loop over a series that holds no number: the two
    artists are drawn and the axis bound becomes not-a-number, whatever it
    was. *)
Lemma make_plot_loop_missing_series (times : list datetime) (key : string)
  (data : list float) (color_ind : nat) (max_val : float) :
  (color_ind < length colors)%nat ->
  data <> [] -> Forall (fun x => is_nan x = true) data -> length data = length times ->
  make_plot_loop times [(key, data)] color_ind max_val =
  (series_artists times (default "" (colors !! color_ind)) (key, data), Return nan).
Proof.
  intros Hc Hne Hnan Hlen. rewrite make_plot_loop_cons.
  destruct (lookup_lt_is_Some_2 colors color_ind Hc) as [color ->].
  rewrite <- Hlen, Nat.eqb_refl.
  rewrite (all_nan_replicate data Hnan) at 2.
  destruct (length data) as [|n] eqn:En.
  { destruct data; [contradiction|discriminate]. }
  cbn [replicate fmap list_fmap np_nanmax ret result snd].
  change (PrimFloat.abs nan) with nan.
  rewrite nanmax_all_nan, bind_return. cbn [make_plot_loop ret trace result fst snd default].
  change (nan * one_point_one)%float with nan. rewrite py_max_nan_l, app_nil_r.
  reflexivity.
Qed.

Lemma make_plot_loop_app (times : list datetime) (items1 items2 : list (string * list float)) :
  forall color_ind max_val,
  make_plot_loop times (items1 ++ items2) color_ind max_val =
  bind (make_plot_loop times items1 color_ind max_val)
    (fun max_val1 =>
       make_plot_loop times items2 (color_after (length items1) color_ind) max_val1).
Proof.
  induction items1 as [|[key data] rest IH]; intros c mv.
  - cbn [app length color_after make_plot_loop]. by rewrite bind_ret_l.
  - cbn [app length color_after]. rewrite !make_plot_loop_cons.
    destruct (colors !! c) as [color|]; [|reflexivity].
    destruct (length times =? length data)%nat; [|reflexivity].
    rewrite bind_assoc. apply bind_ext. intros b. apply IH.
Qed.

Lemma color_after_lt (n c : nat) :
  (c < length colors)%nat -> (color_after n c < length colors)%nat.
Proof.
  revert c; induction n as [|n IH]; intros c Hc; [exact Hc|].
  cbn [color_after]. apply IH. apply Nat.mod_upper_bound. discriminate.
Qed.

(** The loop over a dict whose last series holds no number ends with the
    bound not-a-number. *)
Lemma make_plot_loop_missing_tail (items : list (string * list float))
  (key : string) (data : list float) (times : list datetime)
  (t1 : list event) (max_val1 : float) :
  make_plot_loop times items 0 0%float = (t1, Return max_val1) ->
  data <> [] -> Forall (fun x => is_nan x = true) data -> length data = length times ->
  make_plot_loop times (items ++ [(key, data)]) 0 0%float =
  (t1 ++ series_artists times (series_color (length items)) (key, data), Return nan).
Proof.
  intros Hitems Hne Hnan Hlen.
  assert (Hc : (color_after (length items) 0 < length colors)%nat)
    by (apply color_after_lt; simpl; lia).
  assert (Hcol : color_after (length items) 0 = (length items mod length colors)%nat).
  { clear. change (length colors) with 6%nat.
    assert (G : forall n c, (c < 6)%nat -> color_after n c = ((c + n) mod 6)%nat).
    { induction n as [|n IH]; intros c Hc; cbn [color_after].
      - by rewrite Nat.add_0_r, Nat.mod_small.
      - change (length colors) with 6%nat.
        rewrite IH by (apply Nat.mod_upper_bound; discriminate).
        rewrite Nat.Div0.add_mod_idemp_l. f_equal. lia. }
    apply (G _ 0%nat). lia. }
  rewrite make_plot_loop_app, Hitems, bind_return.
  rewrite (make_plot_loop_missing_series times key data _ max_val1 Hc Hne Hnan Hlen).
  unfold series_color. rewrite Hcol. reflexivity.
Qed.

Lemma get_omfs_all_missing fs (fps : list string) station_ids obs_types :
  all_missing fs ->
  get_omfs fs fps station_ids obs_types =
  (EvRead <$> fps, Return (replicate (length fps) nan)).
Proof.
  intros Hfs. rewrite get_omfs_mapM.
  induction fps as [|fp fps IH]; [reflexivity|].
  cbn [mapM].
  assert (Hv : file_value fs station_ids obs_types fp = ([EvRead fp], Return nan)).
  { unfold file_value. destruct (Hfs fp) as (e & -> & ->). reflexivity. }
  rewrite Hv, bind_return, IH, bind_return. cbn [ret trace result fst snd].
  rewrite app_nil_r. reflexivity.
Qed.

Lemma make_plot_missing_tail_result (items : list (string * list float))
  (key : string) (data : list float) (times : list datetime) (var : string)
  (t1 : list event) (max_val1 : float) :
  var = "t" \/ var = "ps" \/ var = "q" ->
  make_plot_loop times items 0 0%float = (t1, Return max_val1) ->
  data <> [] -> Forall (fun x => is_nan x = true) data -> length data = length times ->
  result (make_plot (items ++ [(key, data)]) times var) = Raise ylim_error.
Proof.
  intros Hvar Hitems Hne Hnan Hlen. unfold make_plot.
  rewrite (make_plot_loop_missing_tail items key data times t1 max_val1
             Hitems Hne Hnan Hlen).
  destruct Hvar as [->|[->| ->]]; reflexivity.
Qed.

(** On a disk where every file is missing (a wrong root directory, say),
    a call over a non-empty range between two timestamps pandas holds at
    nanosecond resolution, with a valid mode and a known variable, reads
    every path in vain, gets series of not-a-number only, and then
    fails in the plot stage: no chart of missing-data marks is shown,
    [plt.ylim] refuses the not-a-number bound. *)
Theorem plot_time_series_all_missing fs path var anl_ges s_time f_time
  station_ids obs_types (s e : datetime) :
  all_missing fs ->
  anl_ges ∈ allowed_modes ->
  var = "t" \/ var = "ps" \/ var = "q" ->
  normalize s_time = ret s -> normalize f_time = ret e ->
  representable s -> representable e ->
  to_hours s <= to_hours e ->
  result (plot_time_series fs path var anl_ges s_time f_time station_ids obs_types)
    = Raise ylim_error /\
  exists t series,
    collect_series fs path var anl_ges s_time f_time station_ids obs_types
      = (t, Return (hourly_range s e, series)) /\
    series <> [] /\
    Forall (fun kv : string * list float =>
              kv.2 = replicate (length (hourly_range s e)) nan) series.
Proof.
  intros Hfs Hmode Hvar Hs He [_ Bs] [_ Be] Hle.
  pose proof (date_range_in_bounds s e Bs Be) as Hd.
  remember (hourly_range s e) as dr eqn:Edr.
  assert (Hk : exists k, length dr = S k).
  { rewrite Edr, hourly_range_length.
    exists (Z.to_nat (to_hours e - to_hours s)). lia. }
  destruct Hk as [k Hk].
  assert (Hne : replicate (length dr) nan <> []) by (rewrite Hk; discriminate).
  assert (Hnan : Forall (fun x => is_nan x = true) (replicate (length dr) nan))
    by (apply Forall_replicate; reflexivity).
  assert (Hlen : length (replicate (length dr) nan) = length dr)
    by apply length_replicate.
  assert (Hpaths : forall label,
            get_omfs fs (get_gsi_fps path var label dr) station_ids obs_types =
            (EvRead <$> get_gsi_fps path var label dr,
             Return (replicate (length dr) nan))).
  { intros label. rewrite (get_omfs_all_missing _ _ _ _ Hfs), get_gsi_fps_length.
    reflexivity. }
  unfold plot_time_series.
  apply allowed_modes_cases in Hmode as [Hm | [Hm | Hm]]; subst anl_ges.
  - rewrite (collect_series_anl _ _ _ _ _ _ _ s e dr Hs He Hd).
    rewrite (Hpaths "anl"), bind_return, result_bind. cbn [ret trace result fst snd].
    split.
    + exact (make_plot_missing_tail_result [] "anl" _ dr var [] 0%float
               Hvar eq_refl Hne Hnan Hlen).
    + eexists _, _. split; [reflexivity|]. split; [discriminate|].
      by repeat constructor.
  - rewrite (collect_series_ges _ _ _ _ _ _ _ s e dr Hs He Hd).
    rewrite Hpaths, bind_return, result_bind. cbn [ret trace result fst snd].
    split.
    + exact (make_plot_missing_tail_result [] "ges" _ dr var [] 0%float
               Hvar eq_refl Hne Hnan Hlen).
    + eexists _, _. split; [reflexivity|]. split; [discriminate|].
      by repeat constructor.
  - rewrite (collect_series_both _ _ _ _ _ _ _ s e dr Hs He Hd).
    rewrite !Hpaths, !bind_return, result_bind. cbn [ret trace result fst snd].
    split.
    + refine (make_plot_missing_tail_result [("ges", _)] "anl" _ dr var _ _
                Hvar _ Hne Hnan Hlen).
      apply (make_plot_loop_missing_series dr "ges" _ 0%nat 0%float);
        [simpl; lia | exact Hne | exact Hnan | exact Hlen].
    + eexists _, _. split; [reflexivity|]. split; [discriminate|].
      by repeat constructor.
Qed.

Lemma plot_time_series_all_missing_witness :
  result (plot_time_series (disk_of []) "/wrong" "t" "both"
            (TimeStr "2024010100") (TimeStr "2024010102") None None)
  = Raise ylim_error.
Proof.
  assert (Hfs : all_missing (disk_of [])).
  { intros fp. exists (not_found fp). split; reflexivity. }
  assert (Hmode : "both" ∈ allowed_modes) by (apply allowed_modes_cases; tauto).
  assert (Hle : to_hours (DT 2024 1 1 0) <= to_hours (DT 2024 1 1 2))
    by (vm_compute; discriminate).
  assert (Rs : representable (DT 2024 1 1 0))
    by (split; [unfold valid_datetime; simpl; lia | reflexivity]).
  assert (Re : representable (DT 2024 1 1 2))
    by (split; [unfold valid_datetime; simpl; lia | reflexivity]).
  exact (proj1 (plot_time_series_all_missing (disk_of []) "/wrong" "t" "both"
                  (TimeStr "2024010100") (TimeStr "2024010102") None None
                  (DT 2024 1 1 0) (DT 2024 1 1 2)
                  Hfs Hmode (or_introl eq_refl) eq_refl eq_refl Rs Re Hle)).
Defined.

(** The axis bound depends on the order of the series: a series without
    any number wipes out the bound reached before it, and is itself
    forgotten by the series after it.  With a missing series first the
    bound is 1.1 times the largest magnitude of the second series alone;
    with the same two series the other way round it is not-a-number. *)
Theorem axis_bound_depends_on_order (times : list datetime)
  (k1 k2 : string) (missing data : list float) (biggest : float) :
  missing <> [] -> Forall (fun x => is_nan x = true) missing ->
  length missing = length times ->
  np_nanmax (PrimFloat.abs <$> data) = ret biggest ->
  length data = length times ->
  result (make_plot_loop times [(k1, missing); (k2, data)] 0 0%float)
    = Return (biggest * one_point_one)%float /\
  result (make_plot_loop times [(k2, data); (k1, missing)] 0 0%float) = Return nan.
Proof.
  intros Hne Hnan Hlen Hbig Hlen2. split.
  - change [(k1, missing); (k2, data)] with ([(k1, missing)] ++ [(k2, data)]).
    rewrite make_plot_loop_app.
    rewrite (make_plot_loop_missing_series times k1 missing 0%nat 0%float)
      by (simpl; auto; lia).
    rewrite bind_return, make_plot_loop_cons.
    cbn [length color_after]. change (colors !! ((0 + 1) mod length colors)%nat)
      with (Some "g").
    rewrite <- Hlen2, Nat.eqb_refl, Hbig.
    cbn [ret result snd]. rewrite bind_return. cbn [make_plot_loop ret result snd].
    by rewrite py_max_nan_r.
  - assert (Hfirst : exists t1 m1,
              make_plot_loop times [(k2, data)] 0 0%float = (t1, Return m1)).
    { rewrite make_plot_loop_cons. change (colors !! 0%nat) with (Some "b").
      rewrite <- Hlen2, Nat.eqb_refl, Hbig. cbn [ret result snd].
      rewrite bind_return. by eexists _, _. }
    destruct Hfirst as (t1 & m1 & Hfirst).
    change [(k2, data); (k1, missing)] with ([(k2, data)] ++ [(k1, missing)]).
    rewrite (make_plot_loop_missing_tail [(k2, data)] k1 missing times t1 m1
               Hfirst Hne Hnan Hlen).
    reflexivity.
Qed.

Lemma axis_bound_depends_on_order_witness :
  result (make_plot_loop [DT 2024 1 1 0; DT 2024 1 1 1]
            [("ges", [nan; nan]); ("anl", [3%float; (-4)%float])] 0 0%float)
    = Return (4 * one_point_one)%float /\
  result (make_plot_loop [DT 2024 1 1 0; DT 2024 1 1 1]
            [("anl", [3%float; (-4)%float]); ("ges", [nan; nan])] 0 0%float)
    = Return nan.
Proof.
  refine (axis_bound_depends_on_order [DT 2024 1 1 0; DT 2024 1 1 1] "ges" "anl"
            [nan; nan] [3%float; (-4)%float] 4%float _ _ eq_refl eq_refl eq_refl).
  - discriminate.
  - repeat constructor.
Defined.

Lemma pd_mean_all_nan (values : list float) :
  Forall (fun x => is_nan x = true) values -> pd_mean values = nan.
Proof.
  intros H. unfold pd_mean.
  assert (E : List.filter (fun x => negb (is_nan x)) values = []).
  { induction H as [|x l Hx _ IH]; [reflexivity|].
    cbn [List.filter]. rewrite Hx. exact IH. }
  rewrite E. reflexivity.
Qed.

(** A file that is read and keeps rows, all of them with a not-a-number
    omf, is recorded as not-a-number without any printed notice: in the
    series and on the screen it cannot be told from a missing file. *)
Theorem get_omfs_rows_without_numbers fs station_ids obs_types
  (pre : list string) (fp : string) (post : list string) (df : dataframe)
  (t1 : list event) (xs : list float) (e : exn) (fs' : filesystem) :
  get_omfs fs pre station_ids obs_types = (t1, Return xs) ->
  fs fp = Return df ->
  filtered_omf df station_ids obs_types <> [] ->
  Forall (fun x => is_nan x = true) (filtered_omf df station_ids obs_types) ->
  is_FileNotFoundError e = true ->
  fs' fp = Raise e -> (forall other, other <> fp -> fs' other = fs other) ->
  fp ∉ pre -> fp ∉ post ->
  get_omfs fs (pre ++ fp :: post) station_ids obs_types =
    (t1 ++ EvRead fp :: trace (get_omfs fs post station_ids obs_types),
     match result (get_omfs fs post station_ids obs_types) with
     | Return ys => Return (xs ++ nan :: ys)
     | Raise e' => Raise e'
     end) /\
  get_omfs fs' (pre ++ fp :: post) station_ids obs_types =
  get_omfs fs (pre ++ fp :: post) station_ids obs_types.
Proof.
  intros Hpre Hfp Hsome Hnan Hnf Hfp' Hsame Hn1 Hn2.
  assert (Hv : file_value fs station_ids obs_types fp = ([EvRead fp], Return nan)).
  { unfold file_value. rewrite Hfp, (pd_mean_all_nan _ Hnan).
    destruct (filtered_omf df station_ids obs_types); [contradiction|reflexivity]. }
  assert (Hv' : file_value fs' station_ids obs_types fp = ([EvRead fp], Return nan)).
  { unfold file_value. rewrite Hfp', Hnf. reflexivity. }
  assert (Hsame_on : forall l, fp ∉ l ->
            get_omfs fs' l station_ids obs_types = get_omfs fs l station_ids obs_types).
  { intros l Hl. rewrite !get_omfs_mapM.
    induction l as [|x l IH]; [reflexivity|].
    apply not_elem_of_cons in Hl as [Hx Hl]. cbn [mapM].
    rewrite (IH Hl). unfold file_value at 1 3. rewrite (Hsame x) by congruence.
    reflexivity. }
  split.
  - exact (get_omfs_continue fs station_ids obs_types pre fp post t1 xs _ _ Hpre Hv).
  - rewrite !get_omfs_split, (Hsame_on pre Hn1), (Hsame_on post Hn2), Hv, Hv'.
    reflexivity.
Qed.

Lemma get_omfs_rows_without_numbers_witness :
  get_omfs (disk_of []) ([] ++ "a.nc4.gz" :: ["b.nc4.gz"]) None None =
  get_omfs disk_nan_only ([] ++ "a.nc4.gz" :: ["b.nc4.gz"]) None None.
Proof.
  refine (proj2 (get_omfs_rows_without_numbers disk_nan_only None None
                   [] "a.nc4.gz" ["b.nc4.gz"] rows_nan_only [] []
                   (not_found "a.nc4.gz") (disk_of [])
                   eq_refl eq_refl _ _ eq_refl eq_refl _ _ _)).
  - discriminate.
  - repeat constructor.
  - intros other H. unfold disk_nan_only. cbn [disk_of].
    destruct (String.eqb_spec "a.nc4.gz" other) as [E|_]; [congruence|reflexivity].
  - apply not_elem_of_nil.
  - intros H%list_elem_of_singleton. discriminate H.
Defined.
